(** * Llama-finetuning1.ipynb: a shallow embedding of the notebook's glue code

    The notebook wires library calls (torch, pynvml, transformers, peft,
    datasets) into one training run.  The library calls are the outside
    world: each one is an entry of an oracle [World] that says what the call
    returns or raises, and each one leaves an [event] in the trace.  The
    notebook's own code (sequencing, try/except/finally, the constants it
    passes, the split arithmetic, the loss comprehension) is embedded as
    written. *)

From Stdlib Require Import ZArith Lia.
From stdpp Require Import base option list gmap strings.

Local Open Scope string_scope.
Local Open Scope Z_scope.
Local Open Scope list_scope.

(** ** Python exceptions *)

Module PyExn.

(** The built-in classes the notebook's handlers name or can meet, and
    library classes given by their name and base class. *)
Inductive exn_class : Type :=
| BaseException
| KeyboardInterrupt
| Exception
| RuntimeError
| ImportError
| ModuleNotFoundError
| OSError
| ValueError
| KeyError
| Derived (name : string) (base : exn_class).

#[global] Instance exn_class_eq_dec : EqDecision exn_class.
Proof. solve_decision. Defined.

(** Method resolution order of a class (single inheritance). *)
Fixpoint mro (c : exn_class) : list exn_class :=
  c :: match c with
       | BaseException => []
       | KeyboardInterrupt => [BaseException]
       | Exception => [BaseException]
       | RuntimeError | ImportError | OSError | ValueError | KeyError =>
           [Exception; BaseException]
       | ModuleNotFoundError => [ImportError; Exception; BaseException]
       | Derived _ base => mro base
       end.

Definition issubclass (c d : exn_class) : bool := bool_decide (d ∈ mro c).

Record exn : Type := Exn { exn_type : exn_class; exn_msg : string }.

(** [except cls:] matches an exception whose class derives from [cls]. *)
Definition isinstance (e : exn) (cls : exn_class) : bool :=
  issubclass (exn_type e) cls.

(** torch.cuda.OutOfMemoryError and pynvml.NVMLError as the libraries
    declare them. *)
Definition OutOfMemoryError : exn_class := Derived "OutOfMemoryError" RuntimeError.
Definition NVMLError : exn_class := Derived "NVMLError" Exception.

End PyExn.
Export PyExn.

(** ** Result of running a piece of Python *)

Inductive outcome (A : Type) : Type :=
| Returned (a : A)
| Raised (e : exn).
Arguments Returned {A} a.
Arguments Raised {A} e.

(** ** Objects the libraries hand back *)

(** pynvml's memory record ([info.total], [info.used], [info.free]), bytes. *)
Record MemoryInfo : Type := { total : Z; used : Z; free : Z }.

(** An NVML device handle and a loaded model are opaque library objects. *)
Record DeviceHandle : Type := { device_ref : Z }.
Record Model : Type := { model_ref : Z }.

Inductive dtype : Type := bfloat16 | float16 | float32.

Record BitsAndBytesConfig : Type := {
  load_in_4bit : bool;
  bnb_4bit_quant_type : string;
  bnb_4bit_compute_dtype : dtype;
  bnb_4bit_use_double_quant : bool
}.

(** Keyword arguments of [AutoModelForCausalLM.from_pretrained]. *)
Record ModelKwargs : Type := {
  quantization_config : BitsAndBytesConfig;
  device_map : string;
  torch_dtype : dtype;
  low_cpu_mem_usage : bool;
  attn_implementation : string;
  use_cache : bool
}.

(** Keyword arguments of [AutoTokenizer.from_pretrained]. *)
Record TokenizerKwargs : Type := {
  use_fast : bool;
  add_eos_token : bool;
  add_bos_token : bool
}.

(** A tokenizer object: the attributes the notebook assigns, and the two
    things the library does with a text and a token ([encode] gives the ids of
    a text with its special tokens, [convert_tokens_to_ids] the id of a
    token). *)
Record Tokenizer : Type := {
  eos_token : option string;
  pad_token : option string;
  padding_side : string;
  encode : string -> list Z;
  convert_tokens_to_ids : string -> Z
}.

Inductive TaskType : Type := CAUSAL_LM | SEQ_CLS.

(** A decimal float literal of the source, kept as the literal's digits and
    power of ten: [1e-4] is [Decimal 1 (-4)], [0.01] is [Decimal 1 (-2)]. *)
Record decimal : Type := Decimal { digits : Z; exp10 : Z }.

Record LoraConfig : Type := {
  task_type : TaskType;
  r : Z;
  lora_alpha : Z;
  lora_dropout : decimal;
  target_modules : list string
}.

(** A row of the raw dataset (columns [text] and [label]) and a row of the
    tokenized one (the tokenizer's columns; the raw columns are removed). *)
Record Example : Type := { text : string; label : Z }.
Record Encoding : Type := { input_ids : list Z; attention_mask : list Z }.

Record TrainingArguments : Type := {
  output_dir : string;
  per_device_train_batch_size : Z;
  gradient_accumulation_steps : Z;
  gradient_checkpointing : bool;
  learning_rate : decimal;
  weight_decay : decimal;
  max_grad_norm : decimal;
  max_steps : Z;
  fp16 : bool;
  bf16 : bool;
  optim : string;
  logging_dir : string;
  logging_strategy : string;
  logging_steps : Z;
  evaluation_strategy : string;
  eval_steps : Z;
  save_total_limit : Z;
  load_best_model_at_end : bool;
  metric_for_best_model : string;
  dataloader_num_workers : Z;
  dataloader_prefetch_factor : Z
}.

Record DataCollatorForLanguageModeling : Type := {
  collator_tokenizer : Tokenizer;
  mlm : bool
}.

(** The closure [compute_metrics] defined inside the training function; it is
    only handed to the trainer. *)
Inductive metrics_callback : Type := compute_metrics.

(** The trainer object, as its constructor is called. *)
Record Trainer : Type := {
  trainer_model : Model;
  args : TrainingArguments;
  train_dataset : list Encoding;
  eval_dataset : list Encoding;
  data_collator : DataCollatorForLanguageModeling;
  trainer_compute_metrics : metrics_callback
}.

(** Values found in the training log: ints, floats (as their 64 bits) and
    strings.  An entry of [trainer.state.log_history] is a dict. *)
Inductive pyvalue : Type :=
| PyInt (n : Z)
| PyFloat (bits : Z)
| PyStr (s : string).

Abbreviation log_entry := (gmap string pyvalue).

(** ** Library calls, events, the world *)

(** Every call into a library, with the arguments the notebook passes. *)
Inductive call : Type :=
| cuda_empty_cache
| cuda_reset_peak_memory_stats
| set_float32_matmul_precision (precision : string)
| import_pynvml
| nvmlInit
| nvmlDeviceGetHandleByIndex (index : Z)
| nvmlDeviceGetMemoryInfo (handle : DeviceHandle)
| nvmlShutdown
| cuda_memory_allocated
| cuda_memory_reserved
| new_BitsAndBytesConfig (cfg : BitsAndBytesConfig)
| model_from_pretrained (model_id : string) (kw : ModelKwargs)
| tokenizer_from_pretrained (model_id : string) (kw : TokenizerKwargs)
| new_LoraConfig (cfg : LoraConfig)
| prepare_model_for_kbit_training (m : Model)
| get_peft_model (m : Model) (cfg : LoraConfig)
| load_dataset (path : string) (split : string)
| dataset_shuffle (seed : option Z)
| dataset_map (batched : bool) (remove_columns : list string)
              (num_proc : Z) (batch_size : nat)
| dataset_select (indices : list nat)
| new_TrainingArguments (a : TrainingArguments)
| new_DataCollator (c : DataCollatorForLanguageModeling)
| new_Trainer (t : Trainer)
| trainer_train (t : Trainer)
| trainer_save_model (t : Trainer) (path : string).

(** What the notebook prints (the numbers before formatting). *)
Inductive message : Type :=
| msg_gpu_total (bytes : Z)
| msg_gpu_used (bytes : Z)
| msg_gpu_free (bytes : Z)
| msg_device_error (e : exn)
| msg_nvml_not_available
| msg_allocated (bytes : Z)
| msg_cached (bytes : Z)
| msg_training_interrupted (e : exn).

Inductive event : Type :=
| Call (c : call)
| Printed (m : message)
| SetEnv (key value : string).

(** The outside world of one run: which library calls raise, and what the
    others return. *)
Record World : Type := {
  raises : call -> option exn;
  device_handle : Z -> DeviceHandle;
  memory_info : DeviceHandle -> MemoryInfo;
  memory_allocated : Z;
  memory_reserved : Z;
  pretrained_model : string -> ModelKwargs -> Model;
  pretrained_tokenizer : string -> TokenizerKwargs -> Tokenizer;
  kbit_model : Model -> Model;
  peft_model : Model -> LoraConfig -> Model;
  hub_dataset : string -> string -> list Example;
  (** the permutation numpy's generator draws for a seed and a length *)
  permutation : Z -> nat -> list nat;
  (** the entropy the operating system would give an unseeded generator *)
  os_entropy : Z;
  (** the entries a training run appends to the log before it ends *)
  logged_by_train : Trainer -> list log_entry
}.

(** The part of the interpreter's state the notebook's code can see change. *)
Record state : Type := {
  trace : list event;
  log_history : list log_entry
}.

Definition Py (A : Type) : Type := state -> outcome A * state.

Definition ret {A} (a : A) : Py A := fun s => (Returned a, s).

Definition raise {A} (e : exn) : Py A := fun s => (Raised e, s).

Definition bind {A B} (c : Py A) (k : A -> Py B) : Py B :=
  fun s => match c s with
           | (Returned a, s') => k a s'
           | (Raised e, s') => (Raised e, s')
           end.

Declare Scope py_scope.
Delimit Scope py_scope with py.
Notation "x <- c ;; k" := (bind c (fun x => k))
  (at level 100, c at next level, right associativity) : py_scope.
Notation "c ;; k" := (bind c (fun _ => k))
  (at level 100, right associativity) : py_scope.
Local Open Scope py_scope.

Definition record (s : state) (ev : event) : state :=
  {| trace := trace s ++ [ev]; log_history := log_history s |}.

Definition emit (ev : event) : Py unit := fun s => (Returned tt, record s ev).

Definition print (m : message) : Py unit := emit (Printed m).

Definition append_log (entries : list log_entry) : Py unit :=
  fun s => (Returned tt,
            {| trace := trace s; log_history := log_history s ++ entries |}).

(** [try: body / except cls as e: handler e] *)
Definition try_except {A} (body : Py A) (cls : exn_class) (handler : exn -> Py A) : Py A :=
  fun s => match body s with
           | (Returned a, s') => (Returned a, s')
           | (Raised e, s') =>
               if isinstance e cls then handler e s' else (Raised e, s')
           end.

(** [try: body / finally: cleanup]: the cleanup runs on both exits; when it
    raises, its exception replaces the body's result. *)
Definition try_finally {A} (body : Py A) (cleanup : Py unit) : Py A :=
  fun s => match body s with
           | (res, s') =>
               match cleanup s' with
               | (Returned _, s'') => (res, s'')
               | (Raised e, s'') => (Raised e, s'')
               end
           end.

Definition initial_state : state := {| trace := []; log_history := [] |}.

(** ** Python's [int(n * 0.8)] *)

Module Float64.

(** A finite non-negative binary64 number, [mant * 2 ^ expo] with
    [mant < 2 ^ 53].  Overflow and subnormals are out of reach of the
    lengths the notebook multiplies (a [len] is below [2 ^ 63]). *)
Record float : Type := { mant : Z; expo : Z }.

(** [m / 2 ^ s] rounded to the nearest integer, ties to the even one. *)
Definition round_even (m s : Z) : Z :=
  let q := m / 2 ^ s in
  let rest := m mod 2 ^ s in
  if 2 * rest <? 2 ^ s then q
  else if 2 ^ s <? 2 * rest then q + 1
  else if Z.even q then q else q + 1.

(** Rounding of [m * 2 ^ e] to 53 significant bits. *)
Definition normalize (m e : Z) : float :=
  let s := Z.log2 m + 1 - 53 in
  if s <=? 0 then {| mant := m; expo := e |}
  else {| mant := round_even m s; expo := e + s |}.

(** [float(n)] for an int [n >= 0]. *)
Definition of_int (n : Z) : float := normalize n 0.

Definition mul (a b : float) : float :=
  normalize (mant a * mant b) (expo a + expo b).

(** [int(x)]: truncation, which for [x >= 0] is the floor. *)
Definition to_int (x : float) : Z :=
  if 0 <=? expo x then mant x * 2 ^ expo x else mant x / 2 ^ (- expo x).

(** The double the literal [0.8] denotes, 0x3FE999999999999A. *)
Definition lit_0_8 : float := {| mant := 3602879701896397; expo := -52 |}.

End Float64.

(** [int(n * 0.8)] for an int [n >= 0] *)
Definition int_of_times_0_8 (n : Z) : Z :=
  Float64.to_int (Float64.mul (Float64.of_int n) Float64.lit_0_8).

(** [int(len(tokenized_dataset) * 0.8)] *)
Definition split_point (n : nat) : nat := Z.to_nat (int_of_times_0_8 (Z.of_nat n)).

(** ** The tokenizer call and the dataset operations *)

Inductive padding_strategy : Type := do_not_pad | longest | max_length.

Definition no_pad_token : exn :=
  Exn ValueError "Asking to pad but the tokenizer does not have a padding token.".
Definition invalid_padding_side : exn :=
  Exn ValueError "Invalid padding strategy".
Definition ragged_tensor : exn :=
  Exn ValueError "Unable to create tensor, sequences of the batch differ in length.".
Definition index_out_of_range : exn :=
  Exn (Derived "IndexError" Exception) "Index out of range for dataset.".

(** Padding of one encoded text up to [target] tokens. *)
Definition pad (tok : Tokenizer) (target : nat) (ids : list Z) : outcome Encoding :=
  let n := length ids in
  if (target <=? n)%nat then
    Returned {| input_ids := ids; attention_mask := replicate n 1 |}
  else
    let fill := replicate (target - n)
                  (convert_tokens_to_ids tok (default "" (pad_token tok))) in
    let zeros := replicate (target - n) 0 in
    if String.eqb (padding_side tok) "right" then
      Returned {| input_ids := ids ++ fill;
                  attention_mask := replicate n 1 ++ zeros |}
    else if String.eqb (padding_side tok) "left" then
      Returned {| input_ids := fill ++ ids;
                  attention_mask := zeros ++ replicate n 1 |}
    else Raised invalid_padding_side.

Fixpoint pad_all (tok : Tokenizer) (target : nat) (idss : list (list Z))
  : outcome (list Encoding) :=
  match idss with
  | [] => Returned []
  | ids :: rest =>
      match pad tok target ids with
      | Raised e => Raised e
      | Returned enc =>
          match pad_all tok target rest with
          | Raised e => Raised e
          | Returned encs => Returned (enc :: encs)
          end
      end
  end.

(** A batch can be made a tensor only when its rows have one length. *)
Definition rectangular (encs : list Encoding) : bool :=
  match encs with
  | [] => true
  | first :: _ =>
      forallb (fun enc => (length (input_ids enc) =? length (input_ids first))%nat) encs
  end.

(** The library's [tokenizer(texts, truncation=, padding=, max_length=,
    return_tensors=)] on a batch of texts: encode, cut to [max_len] tokens
    when truncating, pad as the strategy says, make tensors when asked. *)
Definition tokenizer_call (tok : Tokenizer) (texts : list string)
    (truncation : bool) (padding : padding_strategy) (max_len : nat)
    (return_tensors : option string) : outcome (list Encoding) :=
  let cut ids := if truncation then take max_len ids else ids in
  let idss := map (fun t => cut (encode tok t)) texts in
  let target :=
    match padding with
    | do_not_pad => 0%nat
    | longest => foldr (fun ids acc => Nat.max (length ids) acc) 0%nat idss
    | max_length => max_len
    end in
  match padding, pad_token tok with
  | (longest | max_length), None => Raised no_pad_token
  | _, _ =>
      match pad_all tok target idss with
      | Raised e => Raised e
      | Returned encs =>
          match return_tensors with
          | Some _ => if rectangular encs then Returned encs else Raised ragged_tensor
          | None => Returned encs
          end
      end
  end.

(** Consecutive batches of at most [size] rows. *)
Fixpoint batches_fuel {A} (fuel size : nat) (rows : list A) : list (list A) :=
  match fuel, rows with
  | O, _ | _, [] => []
  | S fuel', _ => take size rows :: batches_fuel fuel' size (drop size rows)
  end.

Definition batches {A} (size : nat) (rows : list A) : list (list A) :=
  batches_fuel (length rows) size rows.

(** [function] applied batch after batch, the results put end to end. *)
Fixpoint map_batches {A B} (function : list A -> outcome (list B))
    (bs : list (list A)) : outcome (list B) :=
  match bs with
  | [] => Returned []
  | b :: rest =>
      match function b with
      | Raised e => Raised e
      | Returned out =>
          match map_batches function rest with
          | Raised e => Raised e
          | Returned outs => Returned (out ++ outs)
          end
      end
  end.

(** [dataset.select(indices)]: the rows at the indices, in their order. *)
Fixpoint select {A} (rows : list A) (indices : list nat) : outcome (list A) :=
  match indices with
  | [] => Returned []
  | i :: rest =>
      match rows !! i with
      | None => Raised index_out_of_range
      | Some row =>
          match select rows rest with
          | Raised e => Raised e
          | Returned out => Returned (row :: out)
          end
      end
  end.

(** [range(start, stop)] *)
Definition range (start stop : nat) : list nat := seq start (stop - start).

Definition lift {A} (o : outcome A) : Py A := fun s => (o, s).

(** ** The notebook *)

Definition set_pad_token (tok : Tokenizer) (value : option string) : Tokenizer :=
  {| eos_token := eos_token tok; pad_token := value;
     padding_side := padding_side tok; encode := encode tok;
     convert_tokens_to_ids := convert_tokens_to_ids tok |}.

Definition set_padding_side (tok : Tokenizer) (value : string) : Tokenizer :=
  {| eos_token := eos_token tok; pad_token := pad_token tok;
     padding_side := value; encode := encode tok;
     convert_tokens_to_ids := convert_tokens_to_ids tok |}.

(** How a [try] block inside a function ends: it falls through to the
    statements after it, or a [return] inside it leaves the function. *)
Inductive flow (A : Type) : Type :=
| Fallthrough
| Return (a : A).
Arguments Fallthrough {A}.
Arguments Return {A} a.

Definition MODEL_ID : string := "meta-llama/Llama-2-7b-hf".

(** The arguments of the [BitsAndBytesConfig(...)] call. *)
Definition quantization_args : BitsAndBytesConfig :=
  {| load_in_4bit := true;
     bnb_4bit_quant_type := "nf4";
     bnb_4bit_compute_dtype := bfloat16;
     bnb_4bit_use_double_quant := true |}.

Definition model_kwargs (bnb_config : BitsAndBytesConfig) : ModelKwargs :=
  {| quantization_config := bnb_config;
     device_map := "auto";
     torch_dtype := bfloat16;
     low_cpu_mem_usage := true;
     attn_implementation := "flash_attention_2";
     use_cache := false |}.

Definition tokenizer_kwargs : TokenizerKwargs :=
  {| use_fast := true; add_eos_token := true; add_bos_token := true |}.

(** The arguments of the [LoraConfig(...)] call. *)
Definition lora_args : LoraConfig :=
  {| task_type := CAUSAL_LM;
     r := 16;
     lora_alpha := 32;
     lora_dropout := Decimal 1 (-1);
     target_modules := ["q_proj"; "k_proj"; "v_proj"; "o_proj"; "gate_proj";
                        "down_proj"; "up_proj"] |}.

Definition training_arguments : TrainingArguments :=
  {| output_dir := "./llama2_finetune";
     per_device_train_batch_size := 4;
     gradient_accumulation_steps := 250;
     gradient_checkpointing := true;
     learning_rate := Decimal 1 (-4);
     weight_decay := Decimal 1 (-2);
     max_grad_norm := Decimal 3 (-1);
     max_steps := 50;
     fp16 := true;
     bf16 := false;
     optim := "adamw_torch_fused";
     logging_dir := "./logs";
     logging_strategy := "steps";
     logging_steps := 10;
     evaluation_strategy := "steps";
     eval_steps := 50;
     save_total_limit := 3;
     load_best_model_at_end := true;
     metric_for_best_model := "eval_loss";
     dataloader_num_workers := 4;
     dataloader_prefetch_factor := 2 |}.

(** The closure [tokenize_function] of [create_efficient_dataset], with the
    tokenizer and the [max_length] it captures as arguments. *)
Definition tokenize_function (tokenizer : Tokenizer) (max_len : nat)
    (examples : list Example) : outcome (list Encoding) :=
  tokenizer_call tokenizer (map text examples) true max_length max_len (Some "pt").

Section Notebook.

Variable w : World.

(** A library call: it is recorded, then it raises or returns as the world
    says. *)
Definition lib {A} (c : call) (result : A) : Py A :=
  emit (Call c) ;;
  match raises w c with
  | Some e => raise e
  | None => ret result
  end.

Definition print_gpu_utilization : Py unit :=
  try_except
    (lib import_pynvml tt ;;
     lib nvmlInit tt ;;
     try_finally
       (try_except
          (handle <- lib (nvmlDeviceGetHandleByIndex 0) (device_handle w 0) ;;
           info <- lib (nvmlDeviceGetMemoryInfo handle) (memory_info w handle) ;;
           print (msg_gpu_total (total info)) ;;
           print (msg_gpu_used (used info)) ;;
           print (msg_gpu_free (free info)))
          Exception
          (fun device_error => print (msg_device_error device_error)))
       (lib nvmlShutdown tt))
    ImportError
    (fun _ =>
       print msg_nvml_not_available ;;
       allocated <- lib cuda_memory_allocated (memory_allocated w) ;;
       print (msg_allocated allocated) ;;
       cached <- lib cuda_memory_reserved (memory_reserved w) ;;
       print (msg_cached cached)).

Definition optimize_memory : Py unit :=
  lib cuda_empty_cache tt ;;
  lib cuda_reset_peak_memory_stats tt ;;
  lib (set_float32_matmul_precision "medium") tt ;;
  print_gpu_utilization ;;
  emit (SetEnv "PYTORCH_CUDA_ALLOC_CONF"
               "expandable_segments:True,max_split_size_mb:128").

Definition load_model_with_minimal_memory (model_id : string) : Py Model :=
  bnb_config <- lib (new_BitsAndBytesConfig quantization_args) quantization_args ;;
  model <- lib (model_from_pretrained model_id (model_kwargs bnb_config))
               (pretrained_model w model_id (model_kwargs bnb_config)) ;;
  ret model.

Definition create_efficient_tokenizer (model_id : string) : Py Tokenizer :=
  tokenizer <- lib (tokenizer_from_pretrained model_id tokenizer_kwargs)
                   (pretrained_tokenizer w model_id tokenizer_kwargs) ;;
  let tokenizer := set_pad_token tokenizer (eos_token tokenizer) in
  let tokenizer := set_padding_side tokenizer "right" in
  ret tokenizer.

(** [dataset.shuffle(seed=...)]: the rows in the order of the permutation the
    generator draws; a generator without a seed starts from OS entropy. *)
Definition shuffle {A} (rows : list A) (seed : option Z) : Py (list A) :=
  lib (dataset_shuffle seed) tt ;;
  let generator_seed := match seed with
                        | Some value => value
                        | None => os_entropy w
                        end in
  lift (select rows (permutation w generator_seed (length rows))).

(** [dataset.map(function, batched=True, remove_columns=..., num_proc=...,
    batch_size=...)]: the worker processes take the batches in order and the
    results are put end to end; only the columns the function returns stay
    when every input column is removed. *)
Definition map_dataset (rows : list Example)
    (function : list Example -> outcome (list Encoding))
    (remove_columns : list string) (num_proc : Z) (batch_size : nat)
  : Py (list Encoding) :=
  lib (dataset_map true remove_columns num_proc batch_size) tt ;;
  lift (map_batches function (batches batch_size rows)).

Definition column_names : list string := ["text"; "label"].

Definition create_efficient_dataset (dataset : list Example)
    (tokenizer : Tokenizer) (max_len : nat) : Py (list Encoding) :=
  dataset <- shuffle dataset (Some 42) ;;
  tokenized_dataset <- map_dataset dataset (tokenize_function tokenizer max_len)
                         column_names 4 1000 ;;
  ret tokenized_dataset.

(** [dataset.select(indices)] as the library call it is. *)
Definition select_rows {A} (rows : list A) (indices : list nat) : Py (list A) :=
  lib (dataset_select indices) tt ;;
  lift (select rows indices).

Definition create_memory_optimized_training_args : Py TrainingArguments :=
  lib (new_TrainingArguments training_arguments) training_arguments.

(** [trainer.train()]: the run appends to the trainer's log, then returns or
    raises. *)
Definition train (trainer : Trainer) : Py unit :=
  emit (Call (trainer_train trainer)) ;;
  append_log (logged_by_train w trainer) ;;
  match raises w (trainer_train trainer) with
  | Some e => raise e
  | None => ret tt
  end.

Definition save_model (trainer : Trainer) (path : string) : Py unit :=
  lib (trainer_save_model trainer path) tt.

Definition train_with_memory_optimization : Py Trainer :=
  optimize_memory ;;
  model <- load_model_with_minimal_memory MODEL_ID ;;
  tokenizer <- create_efficient_tokenizer MODEL_ID ;;
  peft_config <- lib (new_LoraConfig lora_args) lora_args ;;
  model <- lib (prepare_model_for_kbit_training model) (kbit_model w model) ;;
  model <- lib (get_peft_model model peft_config) (peft_model w model peft_config) ;;
  dataset <- lib (load_dataset "imdb" "train+test") (hub_dataset w "imdb" "train+test") ;;
  tokenized_dataset <- create_efficient_dataset dataset tokenizer 512 ;;
  train_dataset <- select_rows tokenized_dataset
                     (range 0 (split_point (length tokenized_dataset))) ;;
  eval_dataset <- select_rows tokenized_dataset
                    (range (split_point (length tokenized_dataset))
                           (length tokenized_dataset)) ;;
  training_args <- create_memory_optimized_training_args ;;
  let collator := {| collator_tokenizer := tokenizer; mlm := false |} in
  data_collator <- lib (new_DataCollator collator) collator ;;
  let new_trainer := {| trainer_model := model;
                        args := training_args;
                        train_dataset := train_dataset;
                        eval_dataset := eval_dataset;
                        data_collator := data_collator;
                        trainer_compute_metrics := compute_metrics |} in
  trainer <- lib (new_Trainer new_trainer) new_trainer ;;
  after_try <-
    try_except
      (train trainer ;; ret Fallthrough)
      RuntimeError
      (fun e =>
         print (msg_training_interrupted e) ;;
         save_model trainer "./partial_model" ;;
         ret (Return trainer)) ;;
  match after_try with
  | Return value => ret value
  | Fallthrough =>
      save_model trainer "./final_llama2_model" ;;
      ret trainer
  end.

End Notebook.

(** The last cell: [[entry['loss'] for entry in log_history if 'loss' in
    entry]].  [entry['loss']] raises KeyError on a dict without the key. *)
Definition getitem (entry : log_entry) (key : string) : outcome pyvalue :=
  match entry !! key with
  | Some v => Returned v
  | None => Raised (Exn KeyError key)
  end.

Definition contains (entry : log_entry) (key : string) : bool :=
  bool_decide (key ∈ dom entry).

Fixpoint training_losses (history : list log_entry) : outcome (list pyvalue) :=
  match history with
  | [] => Returned []
  | entry :: rest =>
      if contains entry "loss" then
        match getitem entry "loss" with
        | Raised e => Raised e
        | Returned v =>
            match training_losses rest with
            | Raised e => Raised e
            | Returned vs => Returned (v :: vs)
            end
        end
      else training_losses rest
  end.

#[global] Instance pyvalue_inhabited : Inhabited pyvalue := populate (PyInt 0).

(** The loss series as the specification words it: the entries that have a
    ['loss'] key, in the order of the log, each replaced by its ['loss']
    value. *)
Definition logged_losses (history : list log_entry) : list pyvalue :=
  (fun entry : log_entry => entry !!! "loss")
    <$> filter (fun entry : log_entry => "loss" ∈ dom entry) history.

(** A row of exactly [n] tokens with its mask. *)
Definition has_length (n : nat) (enc : Encoding) : Prop :=
  length (input_ids enc) = n /\ length (attention_mask enc) = n.

(** The state after more events. *)
Definition extend (s : state) (evs : list event) : state :=
  {| trace := trace s ++ evs; log_history := log_history s |}.

(** ** Sample worlds *)

Definition sample_tokenizer : Tokenizer :=
  {| eos_token := Some "</s>";
     pad_token := None;
     padding_side := "left";
     encode := fun t => 1 :: map (fun c => Z.of_nat (Ascii.nat_of_ascii c))
                                 (String.list_ascii_of_string t) ++ [2];
     convert_tokens_to_ids := fun t => if String.eqb t "</s>" then 2 else 0 |}.

Definition sample_reviews : list Example :=
  [ {| text := "a"; label := 1 |}; {| text := "bc"; label := 0 |};
    {| text := "def"; label := 1 |}; {| text := "g"; label := 0 |};
    {| text := "hi"; label := 1 |} ].

Definition sample_log : list log_entry :=
  [ {[ "loss" := PyFloat 4612811918334230528; "step" := PyInt 10 ]};
    {[ "eval_loss" := PyFloat 4611686018427387904; "step" := PyInt 50 ]};
    {[ "loss" := PyFloat 4607182418800017408; "step" := PyInt 20 ]} ].

(** A world with the given faults and entropy; everything that returns,
    returns the samples. *)
Definition world_with (faults : call -> option exn) (entropy : Z) : World :=
  {| raises := faults;
     device_handle := fun i => {| device_ref := i |};
     memory_info := fun _ => {| total := 4096; used := 1024; free := 3072 |};
     memory_allocated := 10;
     memory_reserved := 20;
     pretrained_model := fun _ _ => {| model_ref := 1 |};
     pretrained_tokenizer := fun _ _ => sample_tokenizer;
     kbit_model := fun m => {| model_ref := model_ref m + 1 |};
     peft_model := fun m _ => {| model_ref := model_ref m + 1 |};
     hub_dataset := fun _ _ => sample_reviews;
     permutation := fun seed n => if Z.even seed then reverse (seq 0 n) else seq 0 n;
     os_entropy := entropy;
     logged_by_train := fun _ => sample_log |}.

(** The sample tokenizer as [create_efficient_tokenizer] leaves it, the
    sample reviews tokenized, and the trainer the sample worlds build. *)
Definition ready_tokenizer : Tokenizer :=
  set_padding_side (set_pad_token sample_tokenizer (eos_token sample_tokenizer)) "right".

Definition sample_tokenized : list Encoding :=
  match tokenize_function ready_tokenizer 512 (reverse sample_reviews) with
  | Returned rows => rows
  | Raised _ => []
  end.

Definition sample_trainer : Trainer :=
  {| trainer_model := {| model_ref := 3 |};
     args := training_arguments;
     train_dataset := take 4 sample_tokenized;
     eval_dataset := drop 4 sample_tokenized;
     data_collator := {| collator_tokenizer := ready_tokenizer; mlm := false |};
     trainer_compute_metrics := compute_metrics |}.

(** Nothing raises. *)
Definition calm : World := world_with (fun _ => None) 7.

(** The calm world on another day: the operating system's entropy
    differs. *)
Definition calm_again : World := world_with (fun _ => None) 8.


(** pynvml is not installed. *)
Definition no_module : exn := Exn ModuleNotFoundError "No module named 'pynvml'".
Definition no_pynvml : World :=
  world_with (fun c => match c with import_pynvml => Some no_module | _ => None end) 7.


(** Training runs out of GPU memory (a RuntimeError); in the second world
    the disk is also full, so nothing can be saved. *)
Definition out_of_memory : exn := Exn RuntimeError "CUDA out of memory.".
Definition disk_full : exn := Exn OSError "No space left on device".
Definition oom_in_training : World :=
  world_with (fun c => match c with
                       | trainer_train _ => Some out_of_memory
                       | _ => None
                       end) 7.
Definition oom_and_disk_full : World :=
  world_with (fun c => match c with
                       | trainer_train _ => Some out_of_memory
                       | trainer_save_model _ _ => Some disk_full
                       | _ => None
                       end) 7.

(** The hub cannot be reached when the dataset is loaded. *)
Definition connection_error : exn := Exn OSError "Couldn't reach the Hugging Face Hub".
Definition hub_down : World :=
  world_with (fun c => match c with
                       | load_dataset _ _ => Some connection_error
                       | _ => None
                       end) 7.


(** The events of a query that goes through. *)
Definition query_events (w : World) : list event :=
  [ Call import_pynvml; Call nvmlInit;
    Call (nvmlDeviceGetHandleByIndex 0);
    Call (nvmlDeviceGetMemoryInfo (device_handle w 0));
    Printed (msg_gpu_total (total (memory_info w (device_handle w 0))));
    Printed (msg_gpu_used (used (memory_info w (device_handle w 0))));
    Printed (msg_gpu_free (free (memory_info w (device_handle w 0))));
    Call nvmlShutdown ].

(** The events of the PyTorch fallback. *)
Definition fallback_events (w : World) : list event :=
  [ Printed msg_nvml_not_available;
    Call cuda_memory_allocated; Printed (msg_allocated (memory_allocated w));
    Call cuda_memory_reserved; Printed (msg_cached (memory_reserved w)) ].

(** The statements of [train_with_memory_optimization] before its [try],
    ending with the trainer they build. *)
Definition build_trainer (w : World) : Py Trainer :=
  optimize_memory w ;;
  model <- load_model_with_minimal_memory w MODEL_ID ;;
  tokenizer <- create_efficient_tokenizer w MODEL_ID ;;
  peft_config <- lib w (new_LoraConfig lora_args) lora_args ;;
  model <- lib w (prepare_model_for_kbit_training model) (kbit_model w model) ;;
  model <- lib w (get_peft_model model peft_config) (peft_model w model peft_config) ;;
  dataset <- lib w (load_dataset "imdb" "train+test") (hub_dataset w "imdb" "train+test") ;;
  tokenized_dataset <- create_efficient_dataset w dataset tokenizer 512 ;;
  train_dataset <- select_rows w tokenized_dataset
                     (range 0 (split_point (length tokenized_dataset))) ;;
  eval_dataset <- select_rows w tokenized_dataset
                    (range (split_point (length tokenized_dataset))
                           (length tokenized_dataset)) ;;
  training_args <- create_memory_optimized_training_args w ;;
  let collator := {| collator_tokenizer := tokenizer; mlm := false |} in
  data_collator <- lib w (new_DataCollator collator) collator ;;
  let new_trainer := {| trainer_model := model;
                        args := training_args;
                        train_dataset := train_dataset;
                        eval_dataset := eval_dataset;
                        data_collator := data_collator;
                        trainer_compute_metrics := compute_metrics |} in
  trainer <- lib w (new_Trainer new_trainer) new_trainer ;;
  ret trainer.

(** Its statements from the [try] on. *)
Definition train_and_save (w : World) (trainer : Trainer) : Py Trainer :=
  after_try <-
    try_except
      (train w trainer ;; ret Fallthrough)
      RuntimeError
      (fun e =>
         print (msg_training_interrupted e) ;;
         save_model w trainer "./partial_model" ;;
         ret (Return trainer)) ;;
  match after_try with
  | Return value => ret value
  | Fallthrough =>
      save_model w trainer "./final_llama2_model" ;;
      ret trainer
  end.

(** The state an interrupted training run leaves once the handler has
    called [save_model]. *)
Definition after_interrupted_training (w : World) (trainer : Trainer) (e : exn)
    (s : state) : state :=
  {| trace := trace s ++ [ Call (trainer_train trainer);
                           Printed (msg_training_interrupted e);
                           Call (trainer_save_model trainer "./partial_model") ];
     log_history := log_history s ++ logged_by_train w trainer |}.

(** ** Stages, guarded calls *)

(** The calls made inside the [try] blocks of [print_gpu_utilization]. *)
Definition nvml_guarded (c : call) : bool :=
  match c with
  | import_pynvml | nvmlInit | nvmlShutdown
  | nvmlDeviceGetHandleByIndex _ | nvmlDeviceGetMemoryInfo _ => true
  | _ => false
  end.

(** The failure a [try] block of the notebook stands around: any failure of
    a call inside the NVML query's blocks, and a RuntimeError of
    [trainer.train()]. *)
Definition inside_try (c : call) (e : exn) : bool :=
  match c with
  | trainer_train _ => isinstance e RuntimeError
  | _ => nvml_guarded c
  end.

(** The events [optimize_memory] can leave. *)
Definition memory_event (ev : event) : bool :=
  match ev with
  | Call (cuda_empty_cache | cuda_reset_peak_memory_stats
         | set_float32_matmul_precision _ | import_pynvml | nvmlInit
         | nvmlDeviceGetHandleByIndex _ | nvmlDeviceGetMemoryInfo _
         | nvmlShutdown | cuda_memory_allocated | cuda_memory_reserved) => true
  | Call _ => false
  | Printed (msg_training_interrupted _) => false
  | Printed _ => true
  | SetEnv _ _ => true
  end.

(** The events of [optimize_memory] when nothing raises. *)
Definition memory_events (w : World) : list event :=
  [ Call cuda_empty_cache; Call cuda_reset_peak_memory_stats;
    Call (set_float32_matmul_precision "medium") ]
  ++ query_events w
  ++ [ SetEnv "PYTORCH_CUDA_ALLOC_CONF"
              "expandable_segments:True,max_split_size_mb:128" ].

(** The dataset operations, which can fail on their own account (an index
    out of range, a tokenizer without padding token). *)
Definition dataset_call (c : call) : bool :=
  match c with
  | dataset_shuffle _ | dataset_map _ _ _ _ | dataset_select _ => true
  | _ => false
  end.

(** The tokenizer and the raw dataset of a run of the training function. *)
Definition notebook_tokenizer (w : World) : Tokenizer :=
  set_padding_side
    (set_pad_token (pretrained_tokenizer w MODEL_ID tokenizer_kwargs)
       (eos_token (pretrained_tokenizer w MODEL_ID tokenizer_kwargs)))
    "right".

Definition notebook_dataset (w : World) : list Example :=
  hub_dataset w "imdb" "train+test".

(** [tokenized] is the tokenized dataset of the run in world [w]: the hub's
    rows, shuffled with seed 42, tokenized batch after batch. *)
Definition tokenized_in (w : World) (tokenized : list Encoding) : Prop :=
  exists shuffled,
    select (notebook_dataset w)
      (permutation w 42 (length (notebook_dataset w))) = Returned shuffled
    /\ map_batches (tokenize_function (notebook_tokenizer w) 512)
         (batches 1000 shuffled) = Returned tokenized.

(** The stages of the training function, in the order of the
    specification. *)
Inductive stage : Type :=
| memory_optimization
| model_load
| tokenizer_load
| lora_model_construction
| dataset_load_and_tokenization
| train_eval_split
| arguments_and_collator
| trainer_construction
| training_run
| model_save.

#[global] Instance stage_eq_dec : EqDecision stage.
Proof. solve_decision. Defined.

Definition all_stages : list stage :=
  [ memory_optimization; model_load; tokenizer_load; lora_model_construction;
    dataset_load_and_tokenization; train_eval_split; arguments_and_collator;
    trainer_construction; training_run; model_save ].

Definition stage_of_call (c : call) : stage :=
  match c with
  | cuda_empty_cache | cuda_reset_peak_memory_stats
  | set_float32_matmul_precision _ | import_pynvml | nvmlInit
  | nvmlDeviceGetHandleByIndex _ | nvmlDeviceGetMemoryInfo _ | nvmlShutdown
  | cuda_memory_allocated | cuda_memory_reserved => memory_optimization
  | new_BitsAndBytesConfig _ | model_from_pretrained _ _ => model_load
  | tokenizer_from_pretrained _ _ => tokenizer_load
  | new_LoraConfig _ | prepare_model_for_kbit_training _ | get_peft_model _ _ =>
      lora_model_construction
  | load_dataset _ _ | dataset_shuffle _ | dataset_map _ _ _ _ =>
      dataset_load_and_tokenization
  | dataset_select _ => train_eval_split
  | new_TrainingArguments _ | new_DataCollator _ => arguments_and_collator
  | new_Trainer _ => trainer_construction
  | trainer_train _ => training_run
  | trainer_save_model _ _ => model_save
  end.

(** A message belongs to the stage that prints it. *)
Definition stage_of_event (ev : event) : stage :=
  match ev with
  | Call c => stage_of_call c
  | Printed (msg_training_interrupted _) => training_run
  | Printed _ => memory_optimization
  | SetEnv _ _ => memory_optimization
  end.

(** A list of stages with every run of one stage counted once. *)
Fixpoint merge_runs (stages : list stage) : list stage :=
  match stages with
  | [] => []
  | a :: rest =>
      match rest with
      | [] => [a]
      | b :: _ => if decide (a = b) then merge_runs rest else a :: merge_runs rest
      end
  end.

(** The stages a trace went through, in the order it went through them. *)
Definition stages_visited (evs : list event) : list stage :=
  merge_runs (map stage_of_event evs).

(** The trainer a complete run builds from its tokenized dataset, and the
    events of the run after [optimize_memory]. *)
Definition built_trainer (w : World) (tokenized : list Encoding) : Trainer :=
  {| trainer_model :=
       peft_model w
         (kbit_model w (pretrained_model w MODEL_ID (model_kwargs quantization_args)))
         lora_args;
     args := training_arguments;
     train_dataset := take (split_point (length tokenized)) tokenized;
     eval_dataset := drop (split_point (length tokenized)) tokenized;
     data_collator := {| collator_tokenizer := notebook_tokenizer w; mlm := false |};
     trainer_compute_metrics := compute_metrics |}.

Definition training_events (w : World) (tokenized : list Encoding) : list event :=
  [ Call (new_BitsAndBytesConfig quantization_args);
    Call (model_from_pretrained MODEL_ID (model_kwargs quantization_args));
    Call (tokenizer_from_pretrained MODEL_ID tokenizer_kwargs);
    Call (new_LoraConfig lora_args);
    Call (prepare_model_for_kbit_training
            (pretrained_model w MODEL_ID (model_kwargs quantization_args)));
    Call (get_peft_model
            (kbit_model w (pretrained_model w MODEL_ID (model_kwargs quantization_args)))
            lora_args);
    Call (load_dataset "imdb" "train+test");
    Call (dataset_shuffle (Some 42));
    Call (dataset_map true column_names 4 1000);
    Call (dataset_select (range 0 (split_point (length tokenized))));
    Call (dataset_select (range (split_point (length tokenized)) (length tokenized)));
    Call (new_TrainingArguments training_arguments);
    Call (new_DataCollator {| collator_tokenizer := notebook_tokenizer w; mlm := false |});
    Call (new_Trainer (built_trainer w tokenized));
    Call (trainer_train (built_trainer w tokenized));
    Call (trainer_save_model (built_trainer w tokenized) "./final_llama2_model") ].

(** ** More definitions for the properties of the code *)


(** A checkpoint whose tokenizer has a pad token of its own and no
    end-of-sequence token, and a world that serves it. *)
Definition eos_less_tokenizer : Tokenizer :=
  {| eos_token := None;
     pad_token := Some "[PAD]";
     padding_side := "right";
     encode := encode sample_tokenizer;
     convert_tokens_to_ids := fun t => if String.eqb t "[PAD]" then 0 else 100 |}.

Definition eos_less_world : World :=
  {| raises := raises calm;
     device_handle := device_handle calm;
     memory_info := memory_info calm;
     memory_allocated := memory_allocated calm;
     memory_reserved := memory_reserved calm;
     pretrained_model := pretrained_model calm;
     pretrained_tokenizer := fun _ _ => eos_less_tokenizer;
     kbit_model := kbit_model calm;
     peft_model := peft_model calm;
     hub_dataset := hub_dataset calm;
     permutation := permutation calm;
     os_entropy := os_entropy calm;
     logged_by_train := logged_by_train calm |}.

(** How many events of a trace are calls of a given kind. *)
Fixpoint count_calls (kind : call -> bool) (evs : list event) : nat :=
  match evs with
  | [] => 0
  | Call c :: rest => (if kind c then 1 else 0) + count_calls kind rest
  | _ :: rest => count_calls kind rest
  end.

Definition is_nvmlInit (c : call) : bool :=
  match c with nvmlInit => true | _ => false end.

Definition is_nvmlShutdown (c : call) : bool :=
  match c with nvmlShutdown => true | _ => false end.

Definition is_device_query (c : call) : bool :=
  match c with
  | nvmlDeviceGetHandleByIndex _ | nvmlDeviceGetMemoryInfo _ => true
  | _ => false
  end.

Definition is_train (c : call) : bool :=
  match c with trainer_train _ => true | _ => false end.

Definition is_save (c : call) : bool :=
  match c with trainer_save_model _ _ => true | _ => false end.

(** The events of the steps before the [try] of the training function:
    no training call, no save, no message of an interrupted training. *)
Definition setup_event (ev : event) : bool :=
  match ev with
  | Call (trainer_train _ | trainer_save_model _ _) => false
  | Printed (msg_training_interrupted _) => false
  | _ => true
  end.

(** The assignment of the allocator's environment variable that ends
    [optimize_memory]. *)
Definition allocator_setting : event :=
  SetEnv "PYTORCH_CUDA_ALLOC_CONF" "expandable_segments:True,max_split_size_mb:128".

(** An ImportError raised where the outer handler of the NVML query
    stands: by the import, by [nvmlInit] after the import, or by
    [nvmlShutdown] after both. *)
Definition import_error_in_query (w : World) : Prop :=
  (exists e, raises w import_pynvml = Some e /\ isinstance e ImportError = true)
  \/ (raises w import_pynvml = None
      /\ exists e, raises w nvmlInit = Some e /\ isinstance e ImportError = true)
  \/ (raises w import_pynvml = None /\ raises w nvmlInit = None
      /\ exists e, raises w nvmlShutdown = Some e /\ isinstance e ImportError = true).

(** [nvmlShutdown] itself reports a missing module. *)
Definition shutdown_import_error : World :=
  world_with (fun c => match c with nvmlShutdown => Some no_module | _ => None end) 7.

(** The CUDA runtime is missing: the first torch call raises. *)
Definition no_cuda : exn := Exn RuntimeError "Found no NVIDIA driver on your system.".
Definition cuda_missing : World :=
  world_with (fun c => match c with cuda_empty_cache => Some no_cuda | _ => None end) 7.

(** The hub answers with a dataset that has no row; the tokenizer served
    has no end-of-sequence token either. *)
Definition empty_hub : World :=
  {| raises := raises calm;
     device_handle := device_handle calm;
     memory_info := memory_info calm;
     memory_allocated := memory_allocated calm;
     memory_reserved := memory_reserved calm;
     pretrained_model := pretrained_model calm;
     pretrained_tokenizer := fun _ _ => eos_less_tokenizer;
     kbit_model := kbit_model calm;
     peft_model := peft_model calm;
     hub_dataset := fun _ _ => [];
     permutation := permutation calm;
     os_entropy := os_entropy calm;
     logged_by_train := logged_by_train calm |}.

(** * The split point [int(n * 0.8)] *)

Module Float64Facts.
Import Float64.

Lemma round_even_cases m s :
  round_even m s = m / 2 ^ s
  \/ (round_even m s = m / 2 ^ s + 1 /\ 2 ^ s <= 2 * (m mod 2 ^ s)).
Proof.
  unfold round_even.
  destruct (Z.ltb_spec (2 * (m mod 2 ^ s)) (2 ^ s)); [by left|].
  destruct (Z.ltb_spec (2 ^ s) (2 * (m mod 2 ^ s))); [right; lia|].
  destruct (Z.even (m / 2 ^ s)); [by left|right; lia].
Qed.

Lemma round_even_lower m s : m / 2 ^ s <= round_even m s.
Proof. destruct (round_even_cases m s) as [->|[-> _]]; lia. Qed.

Lemma round_even_upper m s :
  0 <= s -> 2 * (round_even m s * 2 ^ s) <= 2 * m + 2 ^ s.
Proof.
  intros Hs. assert (Hp : 0 < 2 ^ s) by by apply Z.pow_pos_nonneg.
  pose proof (Z.div_mod m (2 ^ s) ltac:(lia)) as Hdm.
  pose proof (Z.mod_pos_bound m (2 ^ s) Hp) as Hr.
  destruct (round_even_cases m s) as [->|[-> Hhalf]]; nia.
Qed.

(** The double of the literal is the one nearest to 4/5. *)
Lemma lit_0_8_nearest : 5 * mant lit_0_8 = 2 ^ 54 + 1 /\ expo lit_0_8 = -52.
Proof. split; reflexivity. Qed.

(** Rounding to 53 bits moves a number up by at most one part in [2 ^ 53]. *)
Lemma normalize_bound m e :
  0 <= m ->
  exists s, 0 <= s
    /\ expo (normalize m e) = e + s
    /\ 0 <= mant (normalize m e)
    /\ m / 2 ^ s <= mant (normalize m e)
    /\ 2 ^ 53 * (mant (normalize m e) * 2 ^ s) <= (2 ^ 53 + 1) * m
    /\ (Z.log2 m < 53 -> s = 0 /\ mant (normalize m e) = m).
Proof.
  intros Hm. unfold normalize.
  destruct (Z.leb_spec (Z.log2 m + 1 - 53) 0) as [Hs|Hs]; simpl.
  - exists 0. rewrite Z.pow_0_r, Z.div_1_r. repeat split; lia.
  - set (s := Z.log2 m + 1 - 53) in *.
    assert (Hmpos : 0 < m).
    { destruct (Z.eq_dec m 0) as [->|]; [|lia]. subst s. simpl in Hs. lia. }
    exists s. split; [lia|]. split; [done|].
    assert (Hp : 0 < 2 ^ s) by (apply Z.pow_pos_nonneg; lia).
    pose proof (round_even_lower m s) as Hlow.
    pose proof (round_even_upper m s ltac:(lia)) as Hup.
    assert (Hq : 0 <= m / 2 ^ s) by (apply Z.div_pos; lia).
    split; [lia|]. split; [done|]. split; [|lia].
    pose proof (Z.log2_spec m Hmpos) as [Hlog _].
    replace (Z.log2 m) with (s + 52) in Hlog by (subst s; lia).
    rewrite Z.pow_add_r in Hlog by lia.
    nia.
Qed.

End Float64Facts.

Section SplitPoint.
Import Float64 Float64Facts.

(** Below [2 ^ 50] rows the rounded product has the integer part of the
    exact [4 * n / 5]. *)
Lemma int_of_times_0_8_exact n :
  0 <= n < 2 ^ 50 -> int_of_times_0_8 n = 4 * n / 5.
Proof.
  intros Hn. unfold int_of_times_0_8, of_int, mul.
  destruct (normalize_bound n 0 ltac:(lia)) as (s1 & _ & He1 & _ & _ & _ & Hsmall).
  destruct Hsmall as [-> Hm1].
  { destruct (Z.eq_dec n 0) as [->|]; [done|].
    apply Z.log2_lt_pow2; lia. }
  rewrite He1, Hm1. clear He1 Hm1.
  change (mant lit_0_8) with 3602879701896397.
  change (expo lit_0_8) with (-52).
  set (M := n * 3602879701896397).
  destruct (normalize_bound M (0 + 0 + -52) ltac:(lia))
    as (s & Hs & He & Hm0 & Hlow & Hup & Hsmall).
  unfold to_int. rewrite He.
  assert (Hs49 : s <= 49 \/ (s = 0 /\ mant (normalize M (0 + 0 + -52)) = M)).
  { destruct (Z.lt_ge_cases (Z.log2 M) 53) as [Hl|Hl]; [right; auto|left].
    unfold normalize in He. simpl in He.
    destruct (Z.leb_spec (Z.log2 M + 1 - 53) 0); simpl in He; [lia|].
    assert (HM : 0 <= M < 2 ^ 102) by (unfold M; lia).
    assert (Z.log2 M < 102); [|lia].
    destruct (Z.eq_dec M 0) as [HM0|]; [by rewrite HM0|].
    apply Z.log2_lt_pow2; lia. }
  destruct (Z.leb_spec 0 (0 + 0 + -52 + s)); [lia|].
  replace (- (0 + 0 + -52 + s)) with (52 - s) by lia.
  set (m2 := mant (normalize M (0 + 0 + -52))) in *.
  assert (HP : 0 < 2 ^ s) by (apply Z.pow_pos_nonneg; lia).
  assert (HQ : 0 < 2 ^ (52 - s)) by (apply Z.pow_pos_nonneg; lia).
  assert (HPQ : 2 ^ s * 2 ^ (52 - s) = 2 ^ 52).
  { rewrite <- Z.pow_add_r by lia. f_equal. lia. }
  assert (HP49 : 2 ^ s <= 2 ^ 49).
  { destruct Hs49 as [?|[-> _]]; [apply Z.pow_le_mono_r; lia|done]. }
  set (q := 4 * n / 5).
  assert (Hq : 5 * q <= 4 * n < 5 * q + 5).
  { unfold q. pose proof (Z.div_mod (4 * n) 5 ltac:(lia)).
    pose proof (Z.mod_pos_bound (4 * n) 5 ltac:(lia)). lia. }
  symmetry. apply Z.div_unique with (r := m2 - q * 2 ^ (52 - s)); [|lia].
  left. split.
  - (* q * 2^(52-s) <= M / 2^s <= m2 *)
    assert (q * 2 ^ (52 - s) <= M / 2 ^ s); [|lia].
    apply Z.div_le_lower_bound; [done|].
    replace (2 ^ s * (q * 2 ^ (52 - s))) with (q * 2 ^ 52) by (rewrite <- HPQ; ring).
    subst M. lia.
  - (* m2 < (q + 1) * 2^(52-s) *)
    assert (2 ^ 53 * (m2 * 2 ^ s) < 2 ^ 53 * ((q + 1) * 2 ^ 52)) as Hlt.
    { eapply Z.le_lt_trans; [apply Hup|]. subst M. lia. }
    rewrite <- HPQ in Hlt. nia.
Qed.

(** In general the split point never passes the number of rows. *)
Lemma int_of_times_0_8_le n : 0 <= n -> 0 <= int_of_times_0_8 n <= n.
Proof.
  intros Hn. unfold int_of_times_0_8, of_int, mul.
  destruct (normalize_bound n 0 Hn) as (s1 & Hs1 & He1 & Hm1 & _ & Hup1 & _).
  set (f1 := normalize n 0) in *.
  change (mant lit_0_8) with 3602879701896397.
  change (expo lit_0_8) with (-52).
  destruct (normalize_bound (mant f1 * 3602879701896397) (expo f1 + -52) ltac:(lia))
    as (s2 & Hs2 & He2 & Hm2 & _ & Hup2 & _).
  set (f2 := normalize (mant f1 * 3602879701896397) (expo f1 + -52)) in *.
  assert (HP1 : 0 < 2 ^ s1) by (apply Z.pow_pos_nonneg; lia).
  assert (HP2 : 0 < 2 ^ s2) by (apply Z.pow_pos_nonneg; lia).
  (* mant f2 * 2^(s1+s2) <= n * 2^52 *)
  assert (Hkey : mant f2 * (2 ^ s1 * 2 ^ s2) <= n * 2 ^ 52).
  { assert (2 ^ 53 * (2 ^ 53 * (mant f2 * 2 ^ s2 * 2 ^ s1))
            <= (2 ^ 53 + 1) * ((2 ^ 53 + 1) * n) * 3602879701896397) as H.
    { transitivity (2 ^ 53 * ((2 ^ 53 + 1) * (mant f1 * 3602879701896397) * 2 ^ s1)).
      - apply Z.mul_le_mono_nonneg_l; [lia|].
        replace (2 ^ 53 * (mant f2 * 2 ^ s2 * 2 ^ s1))
          with (2 ^ 53 * (mant f2 * 2 ^ s2) * 2 ^ s1) by ring.
        apply Z.mul_le_mono_nonneg_r; lia.
      - replace (2 ^ 53 * ((2 ^ 53 + 1) * (mant f1 * 3602879701896397) * 2 ^ s1))
          with ((2 ^ 53 + 1) * 3602879701896397 * (2 ^ 53 * (mant f1 * 2 ^ s1))) by ring.
        replace ((2 ^ 53 + 1) * ((2 ^ 53 + 1) * n) * 3602879701896397)
          with ((2 ^ 53 + 1) * 3602879701896397 * ((2 ^ 53 + 1) * n)) by ring.
        apply Z.mul_le_mono_nonneg_l; lia. }
    set (X := mant f2 * (2 ^ s1 * 2 ^ s2)).
    replace (mant f2 * 2 ^ s2 * 2 ^ s1) with X in H by (subst X; ring).
    lia. }
  rewrite <- Z.pow_add_r in Hkey by lia.
  unfold to_int. rewrite He2, He1.
  destruct (Z.leb_spec 0 (0 + s1 + -52 + s2)) as [Hge|Hlt].
  - replace (s1 + s2) with ((0 + s1 + -52 + s2) + 52) in Hkey by lia.
    rewrite Z.pow_add_r in Hkey by lia.
    assert (0 < 2 ^ (0 + s1 + -52 + s2)) by (apply Z.pow_pos_nonneg; lia).
    nia.
  - replace (- (0 + s1 + -52 + s2)) with (52 - (s1 + s2)) by lia.
    assert (HQ : 0 < 2 ^ (52 - (s1 + s2))) by (apply Z.pow_pos_nonneg; lia).
    split; [apply Z.div_pos; lia|].
    apply Z.div_le_upper_bound; [done|].
    replace (2 ^ 52) with (2 ^ (s1 + s2) * 2 ^ (52 - (s1 + s2))) in Hkey.
    2:{ rewrite <- Z.pow_add_r by lia. f_equal. lia. }
    assert (0 < 2 ^ (s1 + s2)) by (apply Z.pow_pos_nonneg; lia).
    nia.
Qed.

Lemma split_point_le (n : nat) : (split_point n <= n)%nat.
Proof.
  unfold split_point.
  pose proof (int_of_times_0_8_le (Z.of_nat n) ltac:(lia)). lia.
Qed.

Lemma split_point_exact (n : nat) :
  Z.of_nat n < 2 ^ 50 -> Z.of_nat (split_point n) = 4 * Z.of_nat n / 5.
Proof.
  intros Hn. unfold split_point.
  rewrite int_of_times_0_8_exact by lia.
  apply Z2Nat.id. apply Z.div_pos; lia.
Qed.

End SplitPoint.

(** * Dataset operations *)

Section DatasetFacts.

Context {A : Type}.
Implicit Types (rows out : list A) (indices : list nat).

Lemma select_returned rows indices out :
  select rows indices = Returned out ->
  length out = length indices
  /\ forall j i, indices !! j = Some i -> out !! j = rows !! i /\ (i < length rows)%nat.
Proof.
  revert out. induction indices as [|i indices IH]; simpl; intros out Hsel.
  - inversion Hsel. split; [done|]. intros j i Hj. by rewrite lookup_nil in Hj.
  - destruct (rows !! i) as [row|] eqn:Hrow; [|done].
    destruct (select rows indices) as [out'|] eqn:Hrest; [|done].
    inversion Hsel; subst out. destruct (IH out' eq_refl) as [Hlen Hrows].
    split; [simpl; lia|]. intros [|j] i' Hj; simpl in *.
    + inversion Hj; subst i'. split; [done|]. by eapply lookup_lt_Some.
    + by apply Hrows.
Qed.

Lemma select_in_range rows indices :
  Forall (fun i => (i < length rows)%nat) indices ->
  exists out, select rows indices = Returned out.
Proof.
  induction 1 as [|i indices Hi _ [out Hout]]; simpl; [by eexists|].
  destruct (lookup_lt_is_Some_2 rows i Hi) as [row ->].
  rewrite Hout. by eexists.
Qed.

(** Selecting a run of consecutive indices is a slice. *)
Lemma select_seq rows start len :
  (start + len <= length rows)%nat ->
  select rows (seq start len) = Returned (take len (drop start rows)).
Proof.
  revert start. induction len as [|len IH]; intros start Hle; simpl.
  - by rewrite take_0.
  - destruct (lookup_lt_is_Some_2 rows start ltac:(lia)) as [row Hrow].
    rewrite Hrow, IH by lia.
    rewrite (drop_S rows row start Hrow). done.
Qed.

Lemma select_range_prefix rows k :
  (k <= length rows)%nat -> select rows (range 0 k) = Returned (take k rows).
Proof.
  intros Hk. unfold range. rewrite Nat.sub_0_r, select_seq by lia.
  by rewrite drop_0.
Qed.

Lemma select_range_suffix rows k :
  (k <= length rows)%nat ->
  select rows (range k (length rows)) = Returned (drop k rows).
Proof.
  intros Hk. unfold range. rewrite select_seq by lia.
  by rewrite take_ge by (rewrite length_drop; lia).
Qed.



End DatasetFacts.

Section MapBatches.

Context {A B : Type} (function : list A -> outcome (list B)).
Context (P : B -> Prop).


Lemma map_batches_total bs :
  (forall b, exists out, function b = Returned out) ->
  exists outs, map_batches function bs = Returned outs.
Proof.
  intros Hf. induction bs as [|b bs [outs IH]]; simpl; [by eexists|].
  destruct (Hf b) as [out ->]. rewrite IH. by eexists.
Qed.

End MapBatches.

(** * The tokenizer call *)

Section TokenizerFacts.

Implicit Types (tok : Tokenizer) (ids : list Z) (enc : Encoding).

Lemma pad_returned tok target ids enc :
  pad tok target ids = Returned enc ->
  has_length (Nat.max target (length ids)) enc.
Proof.
  unfold pad, has_length.
  destruct (Nat.leb_spec target (length ids)) as [Hle|Hlt].
  - intros [= <-]; simpl. rewrite length_replicate. lia.
  - destruct (String.eqb (padding_side tok) "right").
    { intros [= <-]; simpl. rewrite !length_app, !length_replicate. lia. }
    destruct (String.eqb (padding_side tok) "left"); [|done].
    intros [= <-]; simpl. rewrite !length_app, !length_replicate. lia.
Qed.

(** With the padding side ["right"] the fill goes after the tokens. *)
Lemma pad_right tok target ids :
  padding_side tok = "right" ->
  pad tok target ids
  = Returned
      {| input_ids :=
           ids ++ replicate (target - length ids)
                    (convert_tokens_to_ids tok (default "" (pad_token tok)));
         attention_mask :=
           replicate (length ids) 1 ++ replicate (target - length ids) 0 |}.
Proof.
  intros Hside. unfold pad. rewrite Hside. simpl String.eqb.
  destruct (Nat.leb_spec target (length ids)) as [Hle|Hlt]; [|done].
  replace (target - length ids)%nat with 0%nat by lia.
  simpl. by rewrite !app_nil_r.
Qed.

Lemma pad_all_returned tok target idss encs :
  pad_all tok target idss = Returned encs ->
  Forall (fun ids => (length ids <= target)%nat) idss ->
  Forall (has_length target) encs /\ length encs = length idss.
Proof.
  revert encs. induction idss as [|ids idss IH]; simpl; intros encs Hrun Hall.
  - inversion Hrun. by split.
  - destruct (pad tok target ids) as [enc|] eqn:Hpad; [|done].
    destruct (pad_all tok target idss) as [encs'|]; [|done].
    inversion Hrun; subst encs. inversion Hall as [|? ? Hids Hrest]; subst.
    destruct (IH encs' eq_refl Hrest) as [HP Hlen].
    split; [|simpl; lia]. constructor; [|done].
    apply pad_returned in Hpad. by rewrite Nat.max_l in Hpad.
Qed.

Lemma pad_all_right tok target idss :
  padding_side tok = "right" ->
  exists encs, pad_all tok target idss = Returned encs.
Proof.
  intros Hside. induction idss as [|ids idss [encs IH]]; simpl; [by eexists|].
  rewrite pad_right, IH by done. by eexists.
Qed.

Lemma rectangular_same_length n encs :
  Forall (has_length n) encs -> rectangular encs = true.
Proof.
  intros Hall. destruct encs as [|first encs]; [done|].
  unfold rectangular. apply forallb_forall. intros enc Hin.
  apply Nat.eqb_eq.
  rewrite Forall_forall in Hall.
  destruct (Hall first ltac:(left)) as [-> _].
  apply list_elem_of_In in Hin. by destruct (Hall enc Hin) as [-> _].
Qed.


Lemma tokenizer_call_returns tok texts max_len return_tensors :
  is_Some (pad_token tok) -> padding_side tok = "right" ->
  exists encs,
    tokenizer_call tok texts true max_length max_len return_tensors = Returned encs.
Proof.
  intros [p Hp] Hside.
  destruct (pad_all_right tok max_len
              (map (fun t => take max_len (encode tok t)) texts) Hside) as [encs Hencs].
  assert (Hall : Forall (has_length max_len) encs).
  { eapply pad_all_returned; [done|].
    apply Forall_map, Forall_forall. intros t _. simpl. rewrite length_take. lia. }
  unfold tokenizer_call. rewrite Hp, Hencs.
  destruct return_tensors; [|by eexists].
  rewrite (rectangular_same_length max_len) by done. by eexists.
Qed.

End TokenizerFacts.

(** * Running the embedded code step by step *)

(** Which handler catches what. *)
Example handlers_go_by_class :
  isinstance (Exn OutOfMemoryError "CUDA out of memory.") RuntimeError = true
  /\ isinstance (Exn ModuleNotFoundError "No module named 'pynvml'") ImportError = true
  /\ isinstance (Exn NVMLError "Driver Not Loaded") ImportError = false
  /\ isinstance (Exn NVMLError "GPU is lost") Exception = true
  /\ isinstance (Exn KeyboardInterrupt "") Exception = false.
Proof. repeat split. Qed.

Section Run.

Context {A B : Type}.
Implicit Types (k : A -> Py B) (s : state).

Lemma bind_assoc {C} (c : Py C) (h : C -> Py A) k s :
  bind (bind c h) k s = bind c (fun x => bind (h x) k) s.
Proof. unfold bind. by destruct (c s) as [[x|e] s']. Qed.

Lemma bind_ret a k s : bind (ret a) k s = k a s.
Proof. done. Qed.

Lemma bind_raise e k s : bind (raise e) k s = (Raised e, s).
Proof. done. Qed.

Lemma bind_lift (o : outcome A) k s :
  bind (lift o) k s
  = match o with Returned a => k a s | Raised e => (Raised e, s) end.
Proof. unfold bind, lift. by destruct o. Qed.

Lemma bind_lib w c (v : A) k s :
  bind (lib w c v) k s
  = match raises w c with
    | Some e => (Raised e, record s (Call c))
    | None => k v (record s (Call c))
    end.
Proof. unfold lib, bind, emit. by destruct (raises w c). Qed.

Lemma bind_try_except (body : Py A) cls handler k s :
  bind (try_except body cls handler) k s
  = match body s with
    | (Returned a, s') => k a s'
    | (Raised e, s') =>
        if isinstance e cls then bind (handler e) k s' else (Raised e, s')
    end.
Proof.
  unfold bind, try_except. destruct (body s) as [[a|e] s']; [done|].
  by destruct (isinstance e cls).
Qed.

Lemma bind_try_finally (body : Py A) cleanup k s :
  bind (try_finally body cleanup) k s
  = match body s with
    | (res, s') =>
        match cleanup s' with
        | (Raised e, s'') => (Raised e, s'')
        | (Returned _, s'') =>
            match res with
            | Returned a => k a s''
            | Raised e => (Raised e, s'')
            end
        end
    end.
Proof.
  unfold bind, try_finally. destruct (body s) as [res s'].
  destruct (cleanup s') as [[u|e] s'']; [|done]. by destruct res.
Qed.

End Run.

Lemma bind_emit {B} ev (k : unit -> Py B) s : bind (emit ev) k s = k tt (record s ev).
Proof. done. Qed.

Lemma bind_print {B} m (k : unit -> Py B) s :
  bind (print m) k s = k tt (record s (Printed m)).
Proof. done. Qed.

Lemma bind_append_log {B} entries (k : unit -> Py B) s :
  bind (append_log entries) k s
  = k tt {| trace := trace s; log_history := log_history s ++ entries |}.
Proof. done. Qed.

Lemma run_lib {A} w c (v : A) s :
  lib w c v s
  = (match raises w c with Some e => Raised e | None => Returned v end,
     record s (Call c)).
Proof. unfold lib, bind, emit. by destruct (raises w c). Qed.

Lemma run_print m s : print m s = (Returned tt, record s (Printed m)).
Proof. done. Qed.

Lemma run_emit ev s : emit ev s = (Returned tt, record s ev).
Proof. done. Qed.

Lemma run_ret {A} (a : A) s : ret a s = (Returned a, s).
Proof. done. Qed.

Lemma run_raise {A} e s : @raise A e s = (Raised e, s).
Proof. done. Qed.

Lemma run_lift {A} (o : outcome A) s : lift o s = (o, s).
Proof. done. Qed.

Lemma run_try_except {A} (body : Py A) cls handler s :
  try_except body cls handler s
  = match body s with
    | (Returned a, s') => (Returned a, s')
    | (Raised e, s') =>
        if isinstance e cls then handler e s' else (Raised e, s')
    end.
Proof. done. Qed.

Lemma run_try_finally {A} (body : Py A) cleanup s :
  try_finally body cleanup s
  = match body s with
    | (res, s') =>
        match cleanup s' with
        | (Returned _, s'') => (res, s'')
        | (Raised e, s'') => (Raised e, s'')
        end
    end.
Proof. done. Qed.

(** One step of the running code, then the case split on what the library
    call at the head does. *)
Ltac py_rewrite :=
  first
    [ rewrite bind_assoc | rewrite bind_ret | rewrite bind_raise
    | rewrite bind_emit | rewrite bind_print | rewrite bind_append_log
    | rewrite bind_lift | rewrite bind_lib
    | rewrite bind_try_except | rewrite bind_try_finally
    | rewrite run_lib | rewrite run_print | rewrite run_emit
    | rewrite run_ret | rewrite run_raise | rewrite run_lift
    | rewrite run_try_except | rewrite run_try_finally ].

Ltac py_split :=
  match goal with
  | H : raises ?w ?c = _ |- context [match raises ?w ?c with _ => _ end] =>
      rewrite H
  | H : forall c, raises ?w c = None
    |- context [match raises ?w ?c with _ => _ end] =>
      rewrite (H c)
  | H : ?o = Returned _
    |- context [match ?o with Returned _ => _ | Raised _ => _ end] =>
      rewrite H
  | H : isinstance ?e ?cls = _ |- context [if isinstance ?e ?cls then _ else _] =>
      rewrite H
  | |- context [match raises ?w ?c with _ => _ end] =>
      let e := fresh "e" in
      let H := fresh "Hcall" in
      destruct (raises w c) as [e|] eqn:H
  | |- context [if isinstance ?e ?cls then _ else _] =>
      let H := fresh "Hinst" in
      destruct (isinstance e cls) eqn:H
  | |- context [match ?o with Returned _ => _ | Raised _ => _ end] =>
      let H := fresh "Hout" in
      destruct o eqn:H
  end.

Ltac py_run := repeat (cbv beta iota zeta; first [py_split | py_rewrite]).

Lemma extend_extend s evs1 evs2 :
  extend (extend s evs1) evs2 = extend s (evs1 ++ evs2).
Proof. unfold extend. simpl. by rewrite app_assoc. Qed.

Lemma record_as_extend s ev : record s ev = extend s [ev].
Proof. done. Qed.

Lemma extend_nil s : extend s [] = s.
Proof. destruct s. unfold extend. simpl. by rewrite app_nil_r. Qed.

(** States reached by recording events, written as one [extend]. *)
Ltac py_states :=
  rewrite ?record_as_extend; rewrite ?extend_extend; simpl app.

(** * The loss series (last cell) *)

Section LossSeries.

Implicit Types (entry : log_entry) (history : list log_entry).

Lemma contains_lookup entry key :
  contains entry key = true <-> is_Some (entry !! key).
Proof.
  unfold contains. rewrite bool_decide_eq_true. apply elem_of_dom.
Qed.

Lemma getitem_contains entry key :
  contains entry key = true -> getitem entry key = Returned (entry !!! key).
Proof.
  intros [v Hv]%contains_lookup. unfold getitem.
  rewrite Hv. f_equal. symmetry. by apply lookup_total_correct.
Qed.

Lemma logged_losses_cons_with entry history :
  "loss" ∈ dom entry ->
  logged_losses (entry :: history) = entry !!! "loss" :: logged_losses history.
Proof.
  intros Hin. unfold logged_losses. by rewrite filter_cons_True.
Qed.

Lemma logged_losses_cons_without entry history :
  "loss" ∉ dom entry ->
  logged_losses (entry :: history) = logged_losses history.
Proof.
  intros Hin. unfold logged_losses. by rewrite filter_cons_False.
Qed.

Lemma logged_losses_app history1 history2 :
  logged_losses (history1 ++ history2)
  = logged_losses history1 ++ logged_losses history2.
Proof.
  unfold logged_losses. by rewrite filter_app, fmap_app.
Qed.

Lemma logged_losses_omap history :
  logged_losses history = omap (fun entry : log_entry => entry !! "loss") history.
Proof.
  induction history as [|entry history IH]; [done|].
  destruct (entry !! "loss") as [v|] eqn:Hv; simpl; rewrite Hv.
  - rewrite logged_losses_cons_with by (apply elem_of_dom; eauto).
    rewrite IH. f_equal. by apply lookup_total_correct.
  - rewrite logged_losses_cons_without; [done|].
    by rewrite not_elem_of_dom.
Qed.

(** C8: the comprehension of the last cell never raises and yields, in the
    order of the log, the ['loss'] value of exactly the entries that have a
    ['loss'] key: an entry with the key gives its value once, an entry
    without it gives nothing, and the series of a log put after another is
    the one series put after the other. *)
Theorem training_losses_spec :
  forall history : list log_entry,
    training_losses history = Returned (logged_losses history)
    /\ (forall entry v, entry !! "loss" = Some v ->
          training_losses (entry :: history) = Returned (v :: logged_losses history))
    /\ (forall entry, entry !! "loss" = None ->
          training_losses (entry :: history) = Returned (logged_losses history))
    /\ (forall earlier, logged_losses (earlier ++ history)
                        = logged_losses earlier ++ logged_losses history).
Proof.
  assert (Hmain : forall history, training_losses history = Returned (logged_losses history)).
  { induction history as [|entry history IH]; [done|].
    simpl. destruct (contains entry "loss") eqn:Hc.
    - rewrite getitem_contains, IH by done.
      rewrite logged_losses_cons_with; [done|].
      by apply bool_decide_eq_true in Hc.
    - rewrite IH, logged_losses_cons_without; [done|].
      by apply bool_decide_eq_false in Hc. }
  intros history. split; [apply Hmain|]. split; [|split].
  - intros entry v Hv. rewrite Hmain, logged_losses_cons_with.
    + by rewrite (lookup_total_correct _ _ _ Hv).
    + apply elem_of_dom. eauto.
  - intros entry Hv. rewrite Hmain, logged_losses_cons_without; [done|].
    by rewrite not_elem_of_dom.
  - intros earlier. apply logged_losses_app.
Qed.

End LossSeries.

(** * The tokenizer factory and the tokenized dataset *)

Section Tokenization.

Variable w : World.

Lemma create_efficient_tokenizer_run model_id s :
  create_efficient_tokenizer w model_id s
  = match raises w (tokenizer_from_pretrained model_id tokenizer_kwargs) with
    | Some e => (Raised e, record s (Call (tokenizer_from_pretrained model_id tokenizer_kwargs)))
    | None =>
        (Returned
           (set_padding_side
              (set_pad_token (pretrained_tokenizer w model_id tokenizer_kwargs)
                 (eos_token (pretrained_tokenizer w model_id tokenizer_kwargs)))
              "right"),
         record s (Call (tokenizer_from_pretrained model_id tokenizer_kwargs)))
    end.
Proof. unfold create_efficient_tokenizer. by py_run. Qed.


Lemma create_efficient_dataset_run dataset tok max_len s :
  create_efficient_dataset w dataset tok max_len s
  = match raises w (dataset_shuffle (Some 42)) with
    | Some e => (Raised e, extend s [Call (dataset_shuffle (Some 42))])
    | None =>
        match select dataset (permutation w 42 (length dataset)) with
        | Raised e => (Raised e, extend s [Call (dataset_shuffle (Some 42))])
        | Returned shuffled =>
            let s' := extend s [ Call (dataset_shuffle (Some 42));
                                 Call (dataset_map true column_names 4 1000) ] in
            match raises w (dataset_map true column_names 4 1000) with
            | Some e => (Raised e, s')
            | None =>
                (map_batches (tokenize_function tok max_len)
                   (batches 1000 shuffled), s')
            end
        end
    end.
Proof.
  unfold create_efficient_dataset, shuffle, map_dataset. py_run.
  all: py_states; try reflexivity.
  all: by rewrite Hout0.
Qed.

End Tokenization.




Lemma shuffled_and_tokenized (w : World) dataset tok max_len :
  permutation w 42 (length dataset) ≡ₚ seq 0 (length dataset) ->
  is_Some (pad_token tok) -> padding_side tok = "right" ->
  exists shuffled tokenized,
    select dataset (permutation w 42 (length dataset)) = Returned shuffled
    /\ map_batches (tokenize_function tok max_len) (batches 1000 shuffled)
       = Returned tokenized
    /\ length shuffled = length dataset.
Proof.
  intros Hperm Hpad Hside.
  destruct (select_in_range dataset (permutation w 42 (length dataset)))
    as [shuffled Hsel].
  { rewrite Hperm. apply Forall_forall. intros i Hi.
    apply elem_of_seq in Hi. lia. }
  destruct (map_batches_total (tokenize_function tok max_len)
              (batches 1000 shuffled)) as [tokenized Hmap].
  { intros b. by apply tokenizer_call_returns. }
  exists shuffled, tokenized. split; [done|]. split; [done|].
  apply select_returned in Hsel as [-> _]. by rewrite Hperm, length_seq.
Qed.



(** * The memory helper and its NVML query *)

Section PrintGpuUtilization.

Variable w : World.

Lemma query_succeeds s :
  raises w import_pynvml = None -> raises w nvmlInit = None ->
  raises w (nvmlDeviceGetHandleByIndex 0) = None ->
  raises w (nvmlDeviceGetMemoryInfo (device_handle w 0)) = None ->
  raises w nvmlShutdown = None ->
  print_gpu_utilization w s = (Returned tt, extend s (query_events w)).
Proof.
  intros. unfold print_gpu_utilization. py_run. by py_states.
Qed.






End PrintGpuUtilization.




(** * The training function: before the [try] and from the [try] on *)

Lemma bind_ext {A B} (c : Py A) (k k' : A -> Py B) s :
  (forall a s', k a s' = k' a s') -> bind c k s = bind c k' s.
Proof. intros Hk. unfold bind. destruct (c s) as [[a|e] s']; [apply Hk|done]. Qed.

Lemma bind_run {A B} (c : Py A) (k : A -> Py B) s r s' :
  c s = (r, s') ->
  bind c k s = match r with Returned a => k a s' | Raised e => (Raised e, s') end.
Proof. intros Hc. unfold bind. rewrite Hc. by destruct r. Qed.

Lemma train_with_memory_optimization_split w s :
  train_with_memory_optimization w s
  = bind (build_trainer w) (train_and_save w) s.
Proof.
  unfold train_with_memory_optimization, build_trainer.
  repeat (rewrite (bind_assoc (A := Trainer)); apply bind_ext; intros; cbv zeta).
  reflexivity.
Qed.

(** Two descriptions of one state, up to the bracketing of the trace. *)
Ltac py_same_state :=
  unfold record, extend, after_interrupted_training; simpl;
  rewrite <- ?app_assoc; reflexivity.

Section TrainAndSave.

Variables (w : World) (trainer : Trainer).

Lemma interrupted_then_saved s e :
  raises w (trainer_train trainer) = Some e ->
  isinstance e RuntimeError = true ->
  raises w (trainer_save_model trainer "./partial_model") = None ->
  train_and_save w trainer s
  = (Returned trainer, after_interrupted_training w trainer e s).
Proof.
  intros. unfold train_and_save, train, save_model. py_run. py_same_state.
Qed.

Lemma interrupted_then_save_fails s e e' :
  raises w (trainer_train trainer) = Some e ->
  isinstance e RuntimeError = true ->
  raises w (trainer_save_model trainer "./partial_model") = Some e' ->
  train_and_save w trainer s
  = (Raised e', after_interrupted_training w trainer e s).
Proof.
  intros. unfold train_and_save, train, save_model. py_run. py_same_state.
Qed.

Lemma other_training_error_propagates s e :
  raises w (trainer_train trainer) = Some e ->
  isinstance e RuntimeError = false ->
  train_and_save w trainer s
  = (Raised e,
     {| trace := trace s ++ [Call (trainer_train trainer)];
        log_history := log_history s ++ logged_by_train w trainer |}).
Proof.
  intros. unfold train_and_save, train, save_model. py_run. py_same_state.
Qed.

Lemma trained_then_saved s :
  raises w (trainer_train trainer) = None ->
  raises w (trainer_save_model trainer "./final_llama2_model") = None ->
  train_and_save w trainer s
  = (Returned trainer,
     {| trace := trace s ++ [ Call (trainer_train trainer);
                              Call (trainer_save_model trainer "./final_llama2_model") ];
        log_history := log_history s ++ logged_by_train w trainer |}).
Proof.
  intros. unfold train_and_save, train, save_model. py_run. py_same_state.
Qed.

End TrainAndSave.

(** C1, amended: when the steps before the [try] have built the trainer and
    [trainer.train()] raises a RuntimeError (or an error of a class derived
    from it), the handler prints the error and calls
    [trainer.save_model("./partial_model")]; when that call returns, the
    function returns the trainer, with the log the interrupted run left,
    and no exception reaches the caller; when that call itself raises, its
    exception is what reaches the caller.  The final model is not saved on
    either path. *)
Theorem training_failure_is_caught :
  forall (w : World) (s s1 : state) (trainer : Trainer) (e : exn),
    build_trainer w s = (Returned trainer, s1) ->
    raises w (trainer_train trainer) = Some e ->
    isinstance e RuntimeError = true ->
    (raises w (trainer_save_model trainer "./partial_model") = None ->
     train_with_memory_optimization w s
     = (Returned trainer, after_interrupted_training w trainer e s1))
    /\ (forall e', raises w (trainer_save_model trainer "./partial_model") = Some e' ->
          train_with_memory_optimization w s
          = (Raised e', after_interrupted_training w trainer e s1)).
Proof.
  intros w s s1 trainer e Hbuild Htrain Hinst. split.
  - intros Hsave.
    rewrite train_with_memory_optimization_split, (bind_run _ _ _ _ _ Hbuild).
    by apply interrupted_then_saved.
  - intros e' Hsave.
    rewrite train_with_memory_optimization_split, (bind_run _ _ _ _ _ Hbuild).
    by apply interrupted_then_save_fails.
Qed.

Lemma training_failure_is_caught_witness :
  train_with_memory_optimization oom_in_training initial_state
  = (Returned sample_trainer,
     after_interrupted_training oom_in_training sample_trainer out_of_memory
       (snd (build_trainer oom_in_training initial_state))).
Proof.
  apply (proj1 (training_failure_is_caught oom_in_training initial_state
                  (snd (build_trainer oom_in_training initial_state))
                  sample_trainer out_of_memory
                  ltac:(vm_compute; reflexivity) eq_refl eq_refl)).
  reflexivity.
Defined.

(** C1 as stated fails: training runs out of GPU memory (a RuntimeError),
    the handler's own [save_model] call raises because the disk is full,
    and that error reaches the caller instead of the trainer. *)
Lemma partial_save_failure_reaches_caller :
  fst (build_trainer oom_and_disk_full initial_state) = Returned sample_trainer
  /\ raises oom_and_disk_full (trainer_train sample_trainer) = Some out_of_memory
  /\ isinstance out_of_memory RuntimeError = true
  /\ fst (train_with_memory_optimization oom_and_disk_full initial_state)
     = Raised disk_full.
Proof. repeat split; vm_compute; reflexivity. Qed.

(** * What [optimize_memory] leaves behind *)

(** Membership of a call in a trace written out, one event at a time. *)
Ltac in_trace H :=
  repeat first
    [ apply elem_of_app in H as [H|H]
    | apply elem_of_cons in H as [H|H]
    | apply elem_of_nil in H; destruct H ];
  try discriminate H.

Ltac same_call H := injection H as H; try discriminate H; subst.

Lemma optimize_memory_events w s :
  exists r evs,
    optimize_memory w s = (r, extend s evs)
    /\ forallb memory_event evs = true
    /\ evs <> []
    /\ (forall c e, Call c ∈ evs -> raises w c = Some e -> nvml_guarded c = false ->
          r = Raised e /\ last evs = Some (Call c))
    /\ (forall e, r = Raised e ->
          exists c, last evs = Some (Call c)
                    /\ (raises w c = Some e \/ c = nvmlShutdown)).
Proof.
  unfold optimize_memory, print_gpu_utilization. py_run.
  all: py_states; eexists _, _; split; [reflexivity|]; split; [reflexivity|].
  all: split; [discriminate|].
  all: split.
  all: try (intros c e' Hin Hraises Hguard; in_trace Hin;
            same_call Hin; try discriminate Hguard; try congruence;
            (split; [congruence|reflexivity])).
  all: intros e' Heq; try discriminate Heq; injection Heq as <-.
  all: eexists; split; [reflexivity|]; first [by left|by right].
Qed.

Lemma optimize_memory_quiet w s :
  (forall c, raises w c = None) ->
  optimize_memory w s = (Returned tt, extend s (memory_events w)).
Proof.
  intros Hquiet. unfold optimize_memory, print_gpu_utilization.
  py_run. by py_states.
Qed.

(** * Failures outside the [try] blocks *)

(** The sub-functions of the training function, opened up. *)
Ltac py_open :=
  unfold load_model_with_minimal_memory, create_efficient_tokenizer,
    create_efficient_dataset, shuffle, map_dataset, select_rows,
    create_memory_optimized_training_args, train, save_model.

(** The trace of a state built from [extend s0 evs], as [evs ++ ...]. *)
Ltac py_trace :=
  cbn [fst snd trace log_history record extend initial_state app];
  rewrite <- ?app_assoc;
  cbn [app].

(** Two facts about what one call does: they clash, or they name the same
    exception. *)
Ltac clash :=
  match goal with
  | H1 : raises ?w ?c = None, H2 : raises ?w ?c = Some _ |- _ =>
      rewrite H1 in H2; discriminate H2
  | H1 : raises ?w ?c = Some ?a, H2 : raises ?w ?c = Some ?b |- _ =>
      rewrite H1 in H2; injection H2 as H2; subst
  end.

Lemma unguarded_failure_ends_run w c e :
  let run := train_with_memory_optimization w initial_state in
  Call c ∈ trace (snd run) -> raises w c = Some e -> inside_try c e = false ->
  fst run = Raised e /\ last (trace (snd run)) = Some (Call c).
Proof.
  intros run. subst run. unfold train_with_memory_optimization.
  destruct (optimize_memory_events w initial_state)
    as (r0 & evs & Hrun & _ & _ & Hevs & _).
  rewrite (bind_run _ _ _ _ _ Hrun).
  destruct r0 as [[]|e0].
  2:{ simpl. intros Hin Hraises Htry.
      assert (Hguard : nvml_guarded c = false) by (by destruct c).
      by destruct (Hevs c e Hin Hraises Hguard) as [[= ->] Hlast]. }
  py_open. py_run.
  all: py_trace; intros Hin Hraises Htry.
  all: assert (Hguard : nvml_guarded c = false) by (by destruct c).
  all: in_trace Hin.
  all: try (by destruct (Hevs c e Hin Hraises Hguard) as [[=] _]).
  all: same_call Hin.
  all: clash.
  all: try (cbn [inside_try] in Htry; rewrite Htry in *; discriminate).
  all: split; [reflexivity|].
  all: rewrite last_app_cons; reflexivity.
Qed.

Lemma failure_ends_run w e :
  let run := train_with_memory_optimization w initial_state in
  fst run = Raised e ->
  exists c, last (trace (snd run)) = Some (Call c)
            /\ (raises w c = Some e
                \/ c = nvmlShutdown
                \/ (raises w c = None /\ dataset_call c = true)).
Proof.
  intros run. subst run. unfold train_with_memory_optimization.
  destruct (optimize_memory_events w initial_state)
    as (r0 & evs & Hrun & _ & _ & _ & Hevs).
  rewrite (bind_run _ _ _ _ _ Hrun).
  destruct r0 as [[]|e0].
  2:{ simpl. intros [= ->]. destruct (Hevs e eq_refl) as (c & Hlast & Hc).
      exists c. split; [done|]. destruct Hc; auto. }
  py_open. py_run.
  all: py_trace; intros Heq; try discriminate Heq; injection Heq as <-.
  all: rewrite last_app_cons; eexists; split; [reflexivity|].
  all: first [by left | right; right; by split].
Qed.

(** C2, amended: a library call of the training function that raises
    outside the [try] blocks (those of the NVML query, and the one around
    [trainer.train()], which stands for RuntimeError only) ends the run at
    once: its exception reaches the caller and the call is the last thing
    the function did.  And whenever the function raises, the last thing it
    did is the call that raised, the [nvmlShutdown] of the NVML query's
    [finally], or a dataset operation that failed on its own account; no
    save, retry or fallback follows. *)
Theorem unguarded_failures_propagate :
  forall (w : World) (r : outcome Trainer) (s : state),
    train_with_memory_optimization w initial_state = (r, s) ->
    (forall c e, Call c ∈ trace s -> raises w c = Some e -> inside_try c e = false ->
       r = Raised e /\ last (trace s) = Some (Call c))
    /\ (forall e, r = Raised e ->
          exists c, last (trace s) = Some (Call c)
                    /\ (raises w c = Some e
                        \/ c = nvmlShutdown
                        \/ (raises w c = None /\ dataset_call c = true))).
Proof.
  intros w r s Hrun. split.
  - intros c e. pose proof (unguarded_failure_ends_run w c e) as H.
    simpl in H. by rewrite Hrun in H.
  - intros e. pose proof (failure_ends_run w e) as H.
    simpl in H. by rewrite Hrun in H.
Qed.

Lemma unguarded_failures_propagate_witness :
  fst (train_with_memory_optimization hub_down initial_state) = Raised connection_error
  /\ last (trace (snd (train_with_memory_optimization hub_down initial_state)))
     = Some (Call (load_dataset "imdb" "train+test")).
Proof.
  apply (proj1 (unguarded_failures_propagate hub_down _ _
                  (surjective_pairing _))
           (load_dataset "imdb" "train+test") connection_error).
  - apply list_elem_of_In. vm_compute. tauto.
  - reflexivity.
  - reflexivity.
Defined.

(** C2 as stated fails: a missing pynvml module makes the import raise
    (no RuntimeError of the training call), yet a handler catches it, the
    PyTorch fallback runs, and the function goes on to return the
    trainer. *)
Lemma import_failure_is_handled :
  raises no_pynvml import_pynvml = Some no_module
  /\ isinstance no_module RuntimeError = false
  /\ take 5 (trace (snd (train_with_memory_optimization no_pynvml initial_state)))
     = [ Call cuda_empty_cache; Call cuda_reset_peak_memory_stats;
         Call (set_float32_matmul_precision "medium");
         Call import_pynvml; Printed msg_nvml_not_available ]
  /\ fst (train_with_memory_optimization no_pynvml initial_state)
     = Returned sample_trainer.
Proof. repeat split; vm_compute; reflexivity. Qed.

(** * The train/eval split *)

Section Split.

Context {A : Type}.
Implicit Types rows : list A.

(** Cutting a list at the split point gives two parts that are the list. *)
Lemma split_partition rows :
  let n := length rows in
  let k := split_point n in
  select rows (range 0 k) = Returned (take k rows)
  /\ select rows (range k n) = Returned (drop k rows)
  /\ take k rows ++ drop k rows = rows
  /\ length (take k rows) = k
  /\ length (drop k rows) = (n - k)%nat
  /\ (forall i, (i < k)%nat -> take k rows !! i = rows !! i)
  /\ (forall j, drop k rows !! j = rows !! (k + j)%nat).
Proof.
  intros n k. pose proof (split_point_le n) as Hk. fold k in Hk.
  split; [by apply select_range_prefix|].
  split; [by apply select_range_suffix|].
  split; [apply take_drop|].
  split; [rewrite length_take; lia|].
  split; [by rewrite length_drop|].
  split; [intros i Hi; by apply lookup_take_lt|].
  intros j. apply lookup_drop.
Qed.

End Split.

(** The trainer of a run holds the two parts of that run's tokenized
    dataset. *)
Lemma trainer_datasets w t :
  Call (new_Trainer t) ∈ trace (snd (train_with_memory_optimization w initial_state)) ->
  exists tokenized,
    tokenized_in w tokenized
    /\ select tokenized (range 0 (split_point (length tokenized)))
       = Returned (train_dataset t)
    /\ select tokenized (range (split_point (length tokenized)) (length tokenized))
       = Returned (eval_dataset t).
Proof.
  unfold train_with_memory_optimization.
  destruct (optimize_memory_events w initial_state)
    as (r0 & evs & Hrun & Hmem & _ & _ & _).
  rewrite (bind_run _ _ _ _ _ Hrun).
  assert (Hnot : Call (new_Trainer t) ∉ evs).
  { intros Hin. rewrite forallb_forall in Hmem.
    apply list_elem_of_In, Hmem in Hin. discriminate Hin. }
  destruct r0 as [[]|e0]; [|done].
  py_open. py_run.
  all: py_trace; intros Hin.
  all: in_trace Hin; try done.
  all: same_call Hin.
  all: eexists; split; [eexists; split; eassumption|]; split; assumption.
Qed.

(** C5: the trainer of a run gets, as its training set, the first
    [int(n * 0.8)] rows of the run's tokenized dataset of [n] rows and, as
    its evaluation set, the rows after them: the two parts put end to end
    are the tokenized dataset, every row is at one position of exactly one
    part, and the parts have [int(n * 0.8)] and [n - int(n * 0.8)] rows.
    The product is a double-precision one; below [2 ^ 50] rows its integer
    part is the exact floor of [4 * n / 5]. *)
Theorem train_eval_split_is_partition :
  forall (w : World) (r : outcome Trainer) (s : state) (t : Trainer),
    train_with_memory_optimization w initial_state = (r, s) ->
    Call (new_Trainer t) ∈ trace s ->
    exists tokenized,
      tokenized_in w tokenized
      /\ let n := length tokenized in
         let k := split_point n in
         train_dataset t = take k tokenized
         /\ eval_dataset t = drop k tokenized
         /\ train_dataset t ++ eval_dataset t = tokenized
         /\ length (train_dataset t) = k
         /\ length (eval_dataset t) = (n - k)%nat
         /\ (forall i, (i < k)%nat -> train_dataset t !! i = tokenized !! i)
         /\ (forall j, eval_dataset t !! j = tokenized !! (k + j)%nat)
         /\ (Z.of_nat n < 2 ^ 50 -> Z.of_nat k = 4 * Z.of_nat n / 5).
Proof.
  intros w r s t Hrun Hin.
  pose proof (trainer_datasets w t) as Hsets. rewrite Hrun in Hsets.
  destruct (Hsets Hin) as (tokenized & Htok & Htrain & Heval).
  exists tokenized. split; [done|]. intros n k.
  destruct (split_partition tokenized)
    as (Hprefix & Hsuffix & Happ & Hlen1 & Hlen2 & Hlook1 & Hlook2).
  fold n k in Hprefix, Hsuffix, Happ, Hlen1, Hlen2, Hlook1, Hlook2.
  fold n k in Htrain, Heval.
  rewrite Hprefix in Htrain. rewrite Hsuffix in Heval.
  injection Htrain as <-. injection Heval as <-.
  repeat split; try done. apply split_point_exact.
Qed.

Lemma train_eval_split_is_partition_witness :
  exists tokenized,
    tokenized_in calm tokenized
    /\ train_dataset sample_trainer ++ eval_dataset sample_trainer = tokenized
    /\ length (train_dataset sample_trainer) = split_point (length tokenized).
Proof.
  destruct (train_eval_split_is_partition calm _ _ sample_trainer
              (surjective_pairing _)) as (tokenized & Htok & Hparts).
  - apply (list_elem_of_lookup_2 _ 25%nat). vm_compute. reflexivity.
  - exists tokenized. split; [exact Htok|].
    destruct Hparts as (_ & _ & Happ & Hlen & _). split; [exact Happ|exact Hlen].
Defined.

(** * Reproducible preprocessing *)

(** Without a seed the order of the shuffled rows follows the entropy of
    the day. *)
Example unseeded_shuffle_follows_entropy :
  fst (shuffle calm sample_reviews None initial_state)
  <> fst (shuffle calm_again sample_reviews None initial_state).
Proof. vm_compute. discriminate. Qed.

(** C9: two runs that use the same seeded generator shuffle a dataset into
    the same order, whatever else differs between them (the entropy of the
    operating system, what the other calls do): the rows come out in one
    order, tokenized to the same rows; and when the two runs start from the
    same hub dataset and tokenizer, their trainers get the same training
    rows and the same evaluation rows. *)
Theorem seeded_shuffle_is_reproducible :
  forall w1 w2 : World,
    (forall n, permutation w1 42 n = permutation w2 42 n) ->
    (forall dataset tok max_len s1 s2 tokenized1 tokenized2 s1' s2',
       create_efficient_dataset w1 dataset tok max_len s1 = (Returned tokenized1, s1') ->
       create_efficient_dataset w2 dataset tok max_len s2 = (Returned tokenized2, s2') ->
       (exists shuffled,
          fst (shuffle w1 dataset (Some 42) s1) = Returned shuffled
          /\ fst (shuffle w2 dataset (Some 42) s2) = Returned shuffled)
       /\ tokenized1 = tokenized2)
    /\ (notebook_dataset w1 = notebook_dataset w2 ->
        notebook_tokenizer w1 = notebook_tokenizer w2 ->
        forall t1 t2,
          Call (new_Trainer t1)
            ∈ trace (snd (train_with_memory_optimization w1 initial_state)) ->
          Call (new_Trainer t2)
            ∈ trace (snd (train_with_memory_optimization w2 initial_state)) ->
          train_dataset t1 = train_dataset t2 /\ eval_dataset t1 = eval_dataset t2).
Proof.
  intros w1 w2 Hgen. split.
  - intros dataset tok max_len s1 s2 tokenized1 tokenized2 s1' s2'.
    rewrite !create_efficient_dataset_run. unfold shuffle.
    rewrite !bind_lib, !run_lift, <- Hgen.
    destruct (raises w1 (dataset_shuffle _)); [done|].
    destruct (raises w2 (dataset_shuffle _)); [done|].
    destruct (select dataset _) as [shuffled|]; [|done]. cbv zeta.
    destruct (raises w1 (dataset_map _ _ _ _)); [done|].
    destruct (raises w2 (dataset_map _ _ _ _)); [done|].
    intros [= H1 _] [= H2 _]. split; [by exists shuffled|]. congruence.
  - intros Hdata Htok t1 t2 Hin1 Hin2.
    destruct (trainer_datasets w1 t1 Hin1)
      as (tokenized1 & (shuffled1 & Hsh1 & Hmap1) & Htrain1 & Heval1).
    destruct (trainer_datasets w2 t2 Hin2)
      as (tokenized2 & (shuffled2 & Hsh2 & Hmap2) & Htrain2 & Heval2).
    rewrite Hdata, Hgen, Hsh2 in Hsh1. injection Hsh1 as <-.
    rewrite Htok, Hmap2 in Hmap1. injection Hmap1 as <-.
    rewrite Htrain2 in Htrain1. rewrite Heval2 in Heval1.
    by injection Htrain1 as <-; injection Heval1 as <-.
Qed.

Lemma seeded_shuffle_is_reproducible_witness :
  os_entropy calm <> os_entropy calm_again
  /\ forall t1 t2,
       Call (new_Trainer t1)
         ∈ trace (snd (train_with_memory_optimization calm initial_state)) ->
       Call (new_Trainer t2)
         ∈ trace (snd (train_with_memory_optimization calm_again initial_state)) ->
       train_dataset t1 = train_dataset t2 /\ eval_dataset t1 = eval_dataset t2.
Proof.
  split; [discriminate|].
  apply (proj2 (seeded_shuffle_is_reproducible calm calm_again
                  (fun n => eq_refl))); reflexivity.
Defined.

(** * The order of the stages *)

Lemma memory_event_stage ev :
  memory_event ev = true -> stage_of_event ev = memory_optimization.
Proof. destruct ev as [c|m|key value]; [by destruct c|by destruct m|done]. Qed.

(** The events of [optimize_memory] count as one visit of its stage. *)
Lemma visited_after_memory evs rest :
  forallb memory_event evs = true -> evs <> [] ->
  stages_visited (evs ++ rest)
  = merge_runs (memory_optimization :: map stage_of_event rest).
Proof.
  unfold stages_visited. intros Hmem Hne.
  induction evs as [|ev evs IH]; [done|].
  apply andb_prop in Hmem as [Hev Hmem].
  apply memory_event_stage in Hev.
  destruct evs as [|ev' evs]; [by simpl; rewrite Hev|].
  specialize (IH Hmem ltac:(done)).
  pose proof Hmem as Hev'. apply andb_prop in Hev' as [Hev' _].
  apply memory_event_stage in Hev'.
  change (merge_runs (stage_of_event ev :: stage_of_event ev'
                        :: map stage_of_event (evs ++ rest))
          = merge_runs (memory_optimization :: map stage_of_event rest)).
  rewrite Hev, Hev'.
  change (merge_runs (memory_optimization
                        :: memory_optimization :: map stage_of_event (evs ++ rest)))
    with (merge_runs (memory_optimization :: map stage_of_event (evs ++ rest))).
  change (merge_runs (stage_of_event ev' :: map stage_of_event (evs ++ rest))
          = merge_runs (memory_optimization :: map stage_of_event rest)) in IH.
  by rewrite Hev' in IH.
Qed.

(** The stages of a list of events, computed. *)
Ltac py_stages :=
  match goal with
  | |- context [merge_runs ?l] =>
      let l' := eval lazy in (merge_runs l) in
      change (merge_runs l) with l'
  end.

Lemma every_run_follows_the_stages w :
  stages_visited (trace (snd (train_with_memory_optimization w initial_state)))
    `prefix_of` all_stages.
Proof.
  unfold train_with_memory_optimization.
  destruct (optimize_memory_events w initial_state)
    as (r0 & evs & Hrun & Hmem & Hne & _ & _).
  rewrite (bind_run _ _ _ _ _ Hrun).
  destruct r0 as [[]|e0].
  2:{ cbn [snd trace extend initial_state app].
      rewrite <- (app_nil_r evs), visited_after_memory by done.
      by eexists. }
  py_open. py_run.
  all: py_trace; rewrite visited_after_memory by done.
  all: py_stages; by eexists.
Qed.

Section CompleteRun.

Variable w : World.
Hypothesis quiet : forall c, raises w c = None.
Hypothesis has_eos :
  is_Some (eos_token (pretrained_tokenizer w MODEL_ID tokenizer_kwargs)).
Hypothesis draws_permutation :
  permutation w 42 (length (notebook_dataset w))
  ≡ₚ seq 0 (length (notebook_dataset w)).

Lemma notebook_dataset_is_tokenized : exists tokenized, tokenized_in w tokenized.
Proof.
  destruct (shuffled_and_tokenized w (notebook_dataset w) (notebook_tokenizer w)
              512 draws_permutation has_eos eq_refl)
    as (shuffled & tokenized & Hsel & Hmap & _).
  by exists tokenized, shuffled.
Qed.

Lemma complete_run :
  exists tokenized,
    tokenized_in w tokenized
    /\ train_with_memory_optimization w initial_state
       = (Returned (built_trainer w tokenized),
          {| trace := memory_events w ++ training_events w tokenized;
             log_history := logged_by_train w (built_trainer w tokenized) |}).
Proof.
  destruct notebook_dataset_is_tokenized as (tokenized & Htok).
  exists tokenized. split; [done|].
  destruct Htok as (shuffled & Hsel & Hmap).
  destruct (split_partition tokenized) as (Hprefix & Hsuffix & _).
  unfold notebook_dataset, notebook_tokenizer in *.
  unfold train_with_memory_optimization.
  rewrite (bind_run _ _ _ _ _ (optimize_memory_quiet w initial_state quiet)).
  py_open. py_run. reflexivity.
Qed.

End CompleteRun.

(** C3: on every run the training function goes through its stages in the
    one order memory optimization, model load, tokenizer load, LoRA model
    construction, dataset load and tokenization, train/eval split,
    training arguments and data collator, trainer construction, training
    run, model save, from the first up to the stage where the run ends,
    without skipping or going back.  When nothing raises it goes through all
    ten, and every call receives what earlier calls returned: the LoRA
    wrapping gets the loaded model, the tokenization the loaded dataset and
    tokenizer, the split the tokenized dataset, the trainer the wrapped
    model, the arguments, the two parts and the collator, the training run
    and the save the trainer. *)
Theorem stages_run_in_order :
  forall (w : World) (r : outcome Trainer) (s : state),
    train_with_memory_optimization w initial_state = (r, s) ->
    stages_visited (trace s) `prefix_of` all_stages
    /\ ((forall c, raises w c = None) ->
        is_Some (eos_token (pretrained_tokenizer w MODEL_ID tokenizer_kwargs)) ->
        permutation w 42 (length (notebook_dataset w))
        ≡ₚ seq 0 (length (notebook_dataset w)) ->
        exists tokenized,
          tokenized_in w tokenized
          /\ r = Returned (built_trainer w tokenized)
          /\ trace s = memory_events w ++ training_events w tokenized
          /\ stages_visited (trace s) = all_stages).
Proof.
  intros w r s Hrun. split.
  - pose proof (every_run_follows_the_stages w) as H. by rewrite Hrun in H.
  - intros Hquiet Heos Hperm.
    destruct (complete_run w Hquiet Heos Hperm) as (tokenized & Htok & Hfull).
    rewrite Hfull in Hrun. injection Hrun as <- <-.
    exists tokenized. repeat split; try done.
Qed.

Lemma stages_run_in_order_witness :
  exists tokenized,
    fst (train_with_memory_optimization calm initial_state)
    = Returned (built_trainer calm tokenized)
    /\ stages_visited (trace (snd (train_with_memory_optimization calm initial_state)))
       = all_stages.
Proof.
  destruct (proj2 (stages_run_in_order calm _ _ (surjective_pairing _)))
    as (tokenized & _ & Hr & _ & Hstages).
  - reflexivity.
  - by eexists.
  - change (reverse (seq 0 5) ≡ₚ seq 0 5). apply reverse_Permutation.
  - exists tokenized. split; [exact Hr|exact Hstages].
Defined.

(** * The identifiers and paths the training function uses *)

(** A call found at some place of a list written out. *)
Ltac py_member :=
  lazymatch goal with
  | |- _ ∈ _ ++ _ =>
      apply elem_of_app; right;
      repeat first [apply list_elem_of_here | apply list_elem_of_further]
  | |- _ ∈ _ =>
      repeat first [apply list_elem_of_here | apply list_elem_of_further]
  end.

Lemma run_uses_constants w :
  let run := train_with_memory_optimization w initial_state in
  (forall model_id kw,
     Call (model_from_pretrained model_id kw) ∈ trace (snd run) ->
     model_id = "meta-llama/Llama-2-7b-hf")
  /\ (forall model_id kw,
        Call (tokenizer_from_pretrained model_id kw) ∈ trace (snd run) ->
        model_id = "meta-llama/Llama-2-7b-hf")
  /\ (forall path split,
        Call (load_dataset path split) ∈ trace (snd run) ->
        path = "imdb" /\ split = "train+test")
  /\ (forall a,
        Call (new_TrainingArguments a) ∈ trace (snd run) ->
        output_dir a = "./llama2_finetune" /\ logging_dir a = "./logs")
  /\ (forall t path,
        Call (trainer_save_model t path) ∈ trace (snd run) ->
        output_dir (args t) = "./llama2_finetune"
        /\ logging_dir (args t) = "./logs"
        /\ ((raises w (trainer_train t) = None /\ path = "./final_llama2_model")
            \/ (exists e, raises w (trainer_train t) = Some e
                          /\ isinstance e RuntimeError = true
                          /\ path = "./partial_model")))
  /\ (forall t,
        fst run = Returned t ->
        Call (model_from_pretrained "meta-llama/Llama-2-7b-hf"
                (model_kwargs quantization_args)) ∈ trace (snd run)
        /\ Call (load_dataset "imdb" "train+test") ∈ trace (snd run)
        /\ Call (new_TrainingArguments training_arguments) ∈ trace (snd run)
        /\ (raises w (trainer_train t) = None ->
            Call (trainer_save_model t "./final_llama2_model") ∈ trace (snd run))).
Proof.
  intros run. subst run. unfold train_with_memory_optimization.
  destruct (optimize_memory_events w initial_state)
    as (r0 & evs & Hrun & Hmem & _ & _ & _).
  rewrite (bind_run _ _ _ _ _ Hrun).
  assert (Hevs : forall c, Call c ∈ evs -> memory_event (Call c) = true).
  { intros c Hin. rewrite forallb_forall in Hmem.
    by apply list_elem_of_In, Hmem in Hin. }
  clear Hmem Hrun.
  destruct r0 as [[]|e0].
  2:{ cbn [fst snd trace extend initial_state app].
      repeat split; intros; try discriminate;
        match goal with
        | Hin : Call _ ∈ evs |- _ => apply Hevs in Hin; discriminate Hin
        end. }
  py_open. py_run.
  all: py_trace; repeat split; intros.
  all: try match goal with
           | Hin : Call _ ∈ _ |- _ =>
               in_trace Hin;
               [ apply Hevs in Hin; discriminate Hin
               | same_call Hin; try reflexivity .. ]
           end.
  all: try match goal with
           | Heq : Raised _ = Returned _ |- _ => discriminate Heq
           | Heq : Returned _ = Returned _ |- _ => injection Heq as <-
           end.
  all: try py_member.
  all: try (cbn [fst snd] in *; left; by split).
  all: try (right; eexists; split; [eassumption|]; by split).
  all: try clash.
Qed.

(** C6: the training function takes no argument, and on every run,
    whatever the outside world does, the model and the tokenizer it loads
    are ["meta-llama/Llama-2-7b-hf"], the dataset is ["imdb"] with split
    ["train+test"], the training arguments name ["./llama2_finetune"] for
    the checkpoints and ["./logs"] for the logs, and the model is saved to
    ["./final_llama2_model"] when training completed (to
    ["./partial_model"] only from the handler of an interrupted training).
    A run that returns has made each of these calls. *)
Theorem identifiers_are_constants :
  forall (w : World) (r : outcome Trainer) (s : state),
    train_with_memory_optimization w initial_state = (r, s) ->
    (forall model_id kw,
       Call (model_from_pretrained model_id kw) ∈ trace s ->
       model_id = "meta-llama/Llama-2-7b-hf")
    /\ (forall model_id kw,
          Call (tokenizer_from_pretrained model_id kw) ∈ trace s ->
          model_id = "meta-llama/Llama-2-7b-hf")
    /\ (forall path split,
          Call (load_dataset path split) ∈ trace s ->
          path = "imdb" /\ split = "train+test")
    /\ (forall a,
          Call (new_TrainingArguments a) ∈ trace s ->
          output_dir a = "./llama2_finetune" /\ logging_dir a = "./logs")
    /\ (forall t path,
          Call (trainer_save_model t path) ∈ trace s ->
          output_dir (args t) = "./llama2_finetune"
          /\ logging_dir (args t) = "./logs"
          /\ ((raises w (trainer_train t) = None /\ path = "./final_llama2_model")
              \/ (exists e, raises w (trainer_train t) = Some e
                            /\ isinstance e RuntimeError = true
                            /\ path = "./partial_model")))
    /\ (forall t,
          r = Returned t ->
          Call (model_from_pretrained "meta-llama/Llama-2-7b-hf"
                  (model_kwargs quantization_args)) ∈ trace s
          /\ Call (load_dataset "imdb" "train+test") ∈ trace s
          /\ Call (new_TrainingArguments training_arguments) ∈ trace s
          /\ (raises w (trainer_train t) = None ->
              Call (trainer_save_model t "./final_llama2_model") ∈ trace s)).
Proof.
  intros w r s Hrun.
  pose proof (run_uses_constants w) as H. cbv zeta in H.
  rewrite Hrun in H. exact H.
Qed.

Lemma identifiers_are_constants_witness :
  Call (model_from_pretrained "meta-llama/Llama-2-7b-hf"
          (model_kwargs quantization_args))
    ∈ trace (snd (train_with_memory_optimization calm initial_state))
  /\ Call (load_dataset "imdb" "train+test")
       ∈ trace (snd (train_with_memory_optimization calm initial_state))
  /\ Call (new_TrainingArguments training_arguments)
       ∈ trace (snd (train_with_memory_optimization calm initial_state))
  /\ Call (trainer_save_model sample_trainer "./final_llama2_model")
       ∈ trace (snd (train_with_memory_optimization calm initial_state)).
Proof.
  destruct (proj2 (proj2 (proj2 (proj2 (proj2
              (identifiers_are_constants calm _ _ (surjective_pairing _))))))
              sample_trainer) as (Hmodel & Hdata & Hargs & Hsave).
  - vm_compute. reflexivity.
  - split; [exact Hmodel|]. split; [exact Hdata|]. split; [exact Hargs|].
    apply Hsave. reflexivity.
Defined.

(** * More on the split point *)

Section SplitEdges.
Import Float64 Float64Facts.

(** For a dataset that is not empty the split point is short of its size,
    however large the size and however the product was rounded. *)
Lemma int_of_times_0_8_lt n : 0 < n -> int_of_times_0_8 n < n.
Proof.
  intros Hn. unfold int_of_times_0_8, of_int, mul.
  destruct (normalize_bound n 0 ltac:(lia)) as (s1 & Hs1 & He1 & Hm1 & _ & Hup1 & _).
  set (f1 := normalize n 0) in *.
  change (mant lit_0_8) with 3602879701896397.
  change (expo lit_0_8) with (-52).
  destruct (normalize_bound (mant f1 * 3602879701896397) (expo f1 + -52) ltac:(lia))
    as (s2 & Hs2 & He2 & Hm2 & _ & Hup2 & _).
  set (f2 := normalize (mant f1 * 3602879701896397) (expo f1 + -52)) in *.
  assert (HP1 : 0 < 2 ^ s1) by (apply Z.pow_pos_nonneg; lia).
  assert (HP2 : 0 < 2 ^ s2) by (apply Z.pow_pos_nonneg; lia).
  assert (Hkey : mant f2 * (2 ^ s1 * 2 ^ s2) < n * 2 ^ 52).
  { assert (2 ^ 53 * (2 ^ 53 * (mant f2 * 2 ^ s2 * 2 ^ s1))
            <= (2 ^ 53 + 1) * ((2 ^ 53 + 1) * n) * 3602879701896397) as H.
    { transitivity (2 ^ 53 * ((2 ^ 53 + 1) * (mant f1 * 3602879701896397) * 2 ^ s1)).
      - apply Z.mul_le_mono_nonneg_l; [lia|].
        replace (2 ^ 53 * (mant f2 * 2 ^ s2 * 2 ^ s1))
          with (2 ^ 53 * (mant f2 * 2 ^ s2) * 2 ^ s1) by ring.
        apply Z.mul_le_mono_nonneg_r; lia.
      - replace (2 ^ 53 * ((2 ^ 53 + 1) * (mant f1 * 3602879701896397) * 2 ^ s1))
          with ((2 ^ 53 + 1) * 3602879701896397 * (2 ^ 53 * (mant f1 * 2 ^ s1))) by ring.
        replace ((2 ^ 53 + 1) * ((2 ^ 53 + 1) * n) * 3602879701896397)
          with ((2 ^ 53 + 1) * 3602879701896397 * ((2 ^ 53 + 1) * n)) by ring.
        apply Z.mul_le_mono_nonneg_l; lia. }
    set (X := mant f2 * (2 ^ s1 * 2 ^ s2)).
    replace (mant f2 * 2 ^ s2 * 2 ^ s1) with X in H by (subst X; ring).
    lia. }
  rewrite <- Z.pow_add_r in Hkey by lia.
  unfold to_int. rewrite He2, He1.
  destruct (Z.leb_spec 0 (0 + s1 + -52 + s2)) as [Hge|Hlt].
  - replace (s1 + s2) with ((0 + s1 + -52 + s2) + 52) in Hkey by lia.
    rewrite Z.pow_add_r in Hkey by lia.
    assert (0 < 2 ^ (0 + s1 + -52 + s2)) by (apply Z.pow_pos_nonneg; lia).
    nia.
  - replace (- (0 + s1 + -52 + s2)) with (52 - (s1 + s2)) by lia.
    assert (HQ : 0 < 2 ^ (52 - (s1 + s2))) by (apply Z.pow_pos_nonneg; lia).
    apply Z.div_lt_upper_bound; [done|].
    replace (2 ^ 52) with (2 ^ (s1 + s2) * 2 ^ (52 - (s1 + s2))) in Hkey.
    2:{ rewrite <- Z.pow_add_r by lia. f_equal. lia. }
    assert (0 < 2 ^ (s1 + s2)) by (apply Z.pow_pos_nonneg; lia).
    nia.
Qed.

Lemma split_point_lt (n : nat) : (0 < n)%nat -> (split_point n < n)%nat.
Proof.
  intros Hn. unfold split_point.
  pose proof (int_of_times_0_8_lt (Z.of_nat n) ltac:(lia)).
  pose proof (int_of_times_0_8_le (Z.of_nat n) ltac:(lia)). lia.
Qed.

End SplitEdges.

(** X1: the two index ranges of the split are within bounds for every
    dataset size, so neither [select] raises on its own account; a dataset
    that is not empty always leaves rows for evaluation; a dataset of one
    row leaves none for training; and below [2 ^ 50] rows a dataset of two
    or more leaves some for training and the evaluation part has the fifth
    of the rows, rounded up. *)
Theorem split_bounds_and_edges :
  forall (A : Type) (rows : list A),
    let n := length rows in
    let k := split_point n in
    (exists train eval,
       select rows (range 0 k) = Returned train
       /\ select rows (range k n) = Returned eval)
    /\ (rows <> [] -> drop k rows <> [])
    /\ (n = 1%nat -> take k rows = [] /\ drop k rows = rows)
    /\ ((2 <= n)%nat -> Z.of_nat n < 2 ^ 50 -> take k rows <> [])
    /\ (Z.of_nat n < 2 ^ 50 ->
        Z.of_nat (length (drop k rows)) = (Z.of_nat n + 4) / 5).
Proof.
  intros A rows n k.
  destruct (split_partition rows) as (Hprefix & Hsuffix & _ & Hlen1 & Hlen2 & _).
  fold n k in Hprefix, Hsuffix, Hlen1, Hlen2.
  assert (Hlt : (0 < n)%nat -> (k < n)%nat) by apply split_point_lt.
  assert (Hexact : Z.of_nat n < 2 ^ 50 -> Z.of_nat k = 4 * Z.of_nat n / 5)
    by apply split_point_exact.
  assert (Hpos : rows <> [] -> (0 < n)%nat).
  { unfold n. destruct rows; [done|]. simpl. lia. }
  clearbody n k.
  split; [by eexists _, _|]. split; [|split; [|split]].
  - intros Hne Hnil. specialize (Hlt (Hpos Hne)).
    rewrite Hnil in Hlen2. simpl in Hlen2. lia.
  - intros Hn. assert (k = 0)%nat as -> by lia.
    by rewrite take_0, drop_0.
  - intros Hn Hbound Hnil. specialize (Hexact Hbound).
    rewrite Hnil in Hlen1. simpl in Hlen1.
    pose proof (Z.div_mod (4 * Z.of_nat n) 5 ltac:(lia)).
    pose proof (Z.mod_pos_bound (4 * Z.of_nat n) 5 ltac:(lia)). lia.
  - intros Hbound. specialize (Hexact Hbound).
    rewrite Hlen2.
    pose proof (Z.div_mod (4 * Z.of_nat n) 5 ltac:(lia)).
    pose proof (Z.mod_pos_bound (4 * Z.of_nat n) 5 ltac:(lia)).
    pose proof (Z.div_mod (Z.of_nat n + 4) 5 ltac:(lia)).
    pose proof (Z.mod_pos_bound (Z.of_nat n + 4) 5 ltac:(lia)). lia.
Qed.

(** * The rows of the tokenized dataset *)

Section Rows.

Context {A B : Type}.


Lemma map_batches_first_fails (function : list A -> outcome (list B)) e bs :
  bs <> [] -> (forall b, function b = Raised e) ->
  map_batches function bs = Raised e.
Proof. intros Hne Hf. destruct bs as [|b bs]; [done|]. simpl. by rewrite Hf. Qed.



End Rows.

Lemma batches_nonempty {A} size (rows : list A) : rows <> [] -> batches size rows <> [].
Proof. by destruct rows. Qed.


Lemma tokenize_function_without_pad_token tok max_len examples :
  pad_token tok = None ->
  tokenize_function tok max_len examples = Raised no_pad_token.
Proof. intros Hpad. unfold tokenize_function, tokenizer_call. by rewrite Hpad. Qed.



(** X3: a checkpoint whose tokenizer has no end-of-sequence token leaves
    [create_efficient_tokenizer] without pad token, whatever pad token it
    came with; with that tokenizer [create_efficient_dataset] raises the
    library's ValueError for every dataset that is not empty, right after
    the [map] call, and returns no row. *)
Theorem tokenizer_without_eos_cannot_pad :
  forall (w : World) (model_id : string) (s s' : state) (tok : Tokenizer),
    eos_token (pretrained_tokenizer w model_id tokenizer_kwargs) = None ->
    create_efficient_tokenizer w model_id s = (Returned tok, s') ->
    pad_token tok = None
    /\ forall (w' : World) (dataset shuffled : list Example) (max_len : nat)
              (s0 : state),
         raises w' (dataset_shuffle (Some 42)) = None ->
         raises w' (dataset_map true column_names 4 1000) = None ->
         select dataset (permutation w' 42 (length dataset)) = Returned shuffled ->
         shuffled <> [] ->
         create_efficient_dataset w' dataset tok max_len s0
         = (Raised no_pad_token,
            extend s0 [ Call (dataset_shuffle (Some 42));
                        Call (dataset_map true column_names 4 1000) ]).
Proof.
  intros w model_id s s' tok Heos. rewrite create_efficient_tokenizer_run.
  destruct (raises w _); [done|]. intros [= <- _].
  split; [done|].
  intros w' dataset shuffled max_len s0 Hshuffle Hmap Hsel Hne.
  rewrite create_efficient_dataset_run, Hshuffle, Hsel, Hmap. cbv zeta.
  rewrite (map_batches_first_fails _ no_pad_token); [done| |].
  - by apply batches_nonempty.
  - intros b. by apply tokenize_function_without_pad_token.
Qed.

Lemma tokenizer_without_eos_cannot_pad_witness :
  pad_token (pretrained_tokenizer eos_less_world MODEL_ID tokenizer_kwargs)
  = Some "[PAD]"
  /\ create_efficient_dataset eos_less_world sample_reviews
       (notebook_tokenizer eos_less_world) 512 initial_state
     = (Raised no_pad_token,
        extend initial_state [ Call (dataset_shuffle (Some 42));
                               Call (dataset_map true column_names 4 1000) ]).
Proof.
  split; [reflexivity|].
  destruct (tokenizer_without_eos_cannot_pad eos_less_world MODEL_ID initial_state
              (snd (create_efficient_tokenizer eos_less_world MODEL_ID initial_state))
              (notebook_tokenizer eos_less_world) eq_refl eq_refl)
    as [_ Hraises].
  apply (Hraises eos_less_world sample_reviews (reverse sample_reviews) 512%nat
           initial_state eq_refl eq_refl eq_refl).
  discriminate.
Defined.

(** * More on the memory helper *)

(** What the world says of the calls at hand, put into the goal. *)
Ltac py_known :=
  repeat match goal with
         | H : raises ?w ?c = _ |- context [raises ?w ?c] => rewrite H
         end.



(** X4: in the NVML query [nvmlInit] is called exactly when the import
    went through, [nvmlShutdown] exactly once when [nvmlInit] returned and
    never otherwise, and the device is queried only after [nvmlInit]
    returned, on every path, the raising ones included. *)
Theorem nvml_calls_are_balanced :
  forall (w : World) (s : state),
    exists r evs,
      print_gpu_utilization w s = (r, extend s evs)
      /\ count_calls is_nvmlInit evs
         = match raises w import_pynvml with None => 1%nat | Some _ => 0%nat end
      /\ count_calls is_nvmlShutdown evs
         = match raises w import_pynvml, raises w nvmlInit with
           | None, None => 1%nat
           | _, _ => 0%nat
           end
      /\ (count_calls is_device_query evs <> 0%nat ->
          raises w import_pynvml = None /\ raises w nvmlInit = None).
Proof.
  intros w s. unfold print_gpu_utilization. py_run.
  all: py_states; eexists _, _; split; [reflexivity|].
  all: py_known; split; [reflexivity|]; split; [reflexivity|].
  all: simpl; intros Hcount; first [done|by split].
Qed.


Lemma fallback_runs_on_import_errors_only_example :
  import_error_in_query shutdown_import_error
  /\ trace (snd (print_gpu_utilization shutdown_import_error initial_state))
     = query_events shutdown_import_error ++ fallback_events shutdown_import_error.
Proof.
  split; [|reflexivity].
  right; right. split; [reflexivity|]. split; [reflexivity|].
  exists no_module. by split.
Qed.

(** X6: the three torch calls that open [optimize_memory] stand outside
    every handler: an error of one of them leaves the function at once,
    before pynvml is imported and before the allocator's environment
    variable is assigned.  The variable is assigned exactly on the runs on
    which [optimize_memory] returns, as its last action. *)
Theorem optimize_memory_torch_calls_are_unguarded :
  forall (w : World) (s : state),
    (forall e, raises w cuda_empty_cache = Some e ->
       optimize_memory w s = (Raised e, extend s [Call cuda_empty_cache]))
    /\ (forall e, raises w cuda_empty_cache = None ->
          raises w cuda_reset_peak_memory_stats = Some e ->
          optimize_memory w s
          = (Raised e, extend s [ Call cuda_empty_cache;
                                  Call cuda_reset_peak_memory_stats ]))
    /\ (forall e, raises w cuda_empty_cache = None ->
          raises w cuda_reset_peak_memory_stats = None ->
          raises w (set_float32_matmul_precision "medium") = Some e ->
          optimize_memory w s
          = (Raised e, extend s [ Call cuda_empty_cache;
                                  Call cuda_reset_peak_memory_stats;
                                  Call (set_float32_matmul_precision "medium") ]))
    /\ exists r evs,
         optimize_memory w s = (r, extend s evs)
         /\ (allocator_setting ∈ evs <-> r = Returned tt)
         /\ (r = Returned tt -> last evs = Some allocator_setting).
Proof.
  intros w s. split; [|split; [|split]].
  - intros e He. unfold optimize_memory. py_run. by py_states.
  - intros e H1 He. unfold optimize_memory. py_run. by py_states.
  - intros e H1 H2 He. unfold optimize_memory. py_run. by py_states.
  - unfold optimize_memory, print_gpu_utilization. py_run.
    all: py_states; eexists _, _; split; [reflexivity|].
    all: unfold allocator_setting; split; [split|].
    all: lazymatch goal with
         | |- _ ∈ _ -> _ =>
             intros Hin; first [reflexivity|in_trace Hin]
         | |- _ = Returned _ -> _ ∈ _ =>
             intros Heq;
             first [discriminate Heq
                   |repeat first [apply list_elem_of_here|apply list_elem_of_further]]
         | |- _ = Returned _ -> last _ = _ =>
             intros Heq; first [discriminate Heq|reflexivity]
         end.
Qed.

Lemma optimize_memory_torch_calls_are_unguarded_witness :
  optimize_memory cuda_missing initial_state
  = (Raised no_cuda, extend initial_state [Call cuda_empty_cache]).
Proof.
  apply (proj1 (optimize_memory_torch_calls_are_unguarded cuda_missing initial_state)).
  reflexivity.
Defined.

(** * The trainer a run builds, and what the [try] does with it *)

(** The steps before the [try]: they leave the log alone, never train or
    save, and end, when they return, on the construction of the trainer
    they return, which is the one wired from the run's own objects. *)
Lemma build_trainer_summary w :
  exists r evs,
    build_trainer w initial_state = (r, {| trace := evs; log_history := [] |})
    /\ forallb setup_event evs = true
    /\ (forall t, r = Returned t -> last evs = Some (Call (new_Trainer t)))
    /\ (forall t, Call (new_Trainer t) ∈ evs ->
          exists tokenized, tokenized_in w tokenized /\ t = built_trainer w tokenized).
Proof.
  unfold build_trainer.
  destruct (optimize_memory_events w initial_state)
    as (r0 & evs & Hrun & Hmem & _ & _ & _).
  rewrite (bind_run _ _ _ _ _ Hrun).
  assert (Hsetup : forall rest,
             forallb setup_event rest = true ->
             forallb setup_event (evs ++ rest) = true).
  { intros rest Hrest. rewrite forallb_app, Hrest, andb_true_r.
    rewrite forallb_forall in Hmem. apply forallb_forall. intros ev Hev.
    specialize (Hmem ev Hev).
    destruct ev as [c|m|key value]; [by destruct c|by destruct m|done]. }
  assert (Hnot : forall t, Call (new_Trainer t) ∉ evs).
  { intros t Hin. rewrite forallb_forall in Hmem.
    apply list_elem_of_In, Hmem in Hin. discriminate Hin. }
  destruct r0 as [[]|e0].
  { py_open. py_run.
    all: unfold record, extend, initial_state; cbn [trace log_history app];
      rewrite <- ?app_assoc; cbn [app].
    all: eexists _, _; split; [reflexivity|].
    all: split; [by apply Hsetup|].
    all: split.
    all: lazymatch goal with
         | |- forall t, _ = Returned t -> _ =>
             intros t Heq; try discriminate Heq; injection Heq as <-;
             by rewrite last_app_cons
         | |- forall t, _ ∈ _ -> _ =>
             intros t Hin; in_trace Hin;
             first [by destruct (Hnot t)|same_call Hin]
         end.
    all: destruct (split_partition a0) as (Hprefix & Hsuffix & _);
      rewrite Hprefix in Hout1; rewrite Hsuffix in Hout2;
      injection Hout1 as <-; injection Hout2 as <-;
      exists a0; split; [by exists a|reflexivity]. }
  exists (Raised e0), evs. split; [reflexivity|].
  split; [by rewrite <- (app_nil_r evs); apply Hsetup|].
  split; [done|]. intros t Hin. by destruct (Hnot t).
Qed.

(** The five ways the [try] and what follows it can go. *)
Lemma train_and_save_cases w t s :
  exists r evs,
    train_and_save w t s
    = (r, {| trace := trace s ++ Call (trainer_train t) :: evs;
             log_history := log_history s ++ logged_by_train w t |})
    /\ ((raises w (trainer_train t) = None
         /\ evs = [Call (trainer_save_model t "./final_llama2_model")]
         /\ r = match raises w (trainer_save_model t "./final_llama2_model") with
                | None => Returned t
                | Some e => Raised e
                end)
        \/ (exists e, raises w (trainer_train t) = Some e
                      /\ isinstance e RuntimeError = true
                      /\ evs = [ Printed (msg_training_interrupted e);
                                 Call (trainer_save_model t "./partial_model") ]
                      /\ r = match raises w (trainer_save_model t "./partial_model") with
                             | None => Returned t
                             | Some e' => Raised e'
                             end)
        \/ (exists e, raises w (trainer_train t) = Some e
                      /\ isinstance e RuntimeError = false
                      /\ evs = [] /\ r = Raised e)).
Proof.
  unfold train_and_save, train, save_model. py_run.
  all: eexists _, _; split; [py_same_state|].
  all: py_known.
  all: first
    [ left; by repeat split
    | right; left; eexists; by repeat split
    | right; right; eexists; by repeat split ].
Qed.

Lemma count_calls_app kind evs1 evs2 :
  count_calls kind (evs1 ++ evs2)
  = (count_calls kind evs1 + count_calls kind evs2)%nat.
Proof.
  induction evs1 as [|[c|m|key value] evs1 IH]; simpl; [done| |done|done].
  rewrite IH. lia.
Qed.

Lemma count_calls_setup kind evs :
  (forall c, kind c = true -> setup_event (Call c) = false) ->
  forallb setup_event evs = true -> count_calls kind evs = 0%nat.
Proof.
  intros Hkind.
  induction evs as [|[c|m|key value] evs IH]; cbn [forallb count_calls]; [done| | |].
  - intros [Hc Hrest]%andb_prop. rewrite (IH Hrest).
    destruct (kind c) eqn:Hk; [|done]. by rewrite (Hkind c Hk) in Hc.
  - intros [_ Hrest]%andb_prop. by apply IH.
  - intros [_ Hrest]%andb_prop. by apply IH.
Qed.

(** Every run of the training function: it ends before the [try], or it
    builds a trainer and goes one of the five ways of the [try]. *)
Lemma run_by_parts w r s :
  train_with_memory_optimization w initial_state = (r, s) ->
  exists evs0,
    forallb setup_event evs0 = true
    /\ (forall t, Call (new_Trainer t) ∈ evs0 ->
          exists tokenized, tokenized_in w tokenized /\ t = built_trainer w tokenized)
    /\ ((exists e, r = Raised e /\ s = {| trace := evs0; log_history := [] |})
        \/ (exists t evs,
              last evs0 = Some (Call (new_Trainer t))
              /\ s = {| trace := evs0 ++ Call (trainer_train t) :: evs;
                        log_history := logged_by_train w t |}
              /\ ((raises w (trainer_train t) = None
                   /\ evs = [Call (trainer_save_model t "./final_llama2_model")]
                   /\ r = match raises w (trainer_save_model t "./final_llama2_model") with
                          | None => Returned t
                          | Some e => Raised e
                          end)
                  \/ (exists e, raises w (trainer_train t) = Some e
                                /\ isinstance e RuntimeError = true
                                /\ evs = [ Printed (msg_training_interrupted e);
                                           Call (trainer_save_model t "./partial_model") ]
                                /\ r = match raises w (trainer_save_model t "./partial_model") with
                                       | None => Returned t
                                       | Some e' => Raised e'
                                       end)
                  \/ (exists e, raises w (trainer_train t) = Some e
                                /\ isinstance e RuntimeError = false
                                /\ evs = [] /\ r = Raised e)))).
Proof.
  destruct (build_trainer_summary w) as (r0 & evs0 & Hbuild & Hsetup & Hret & Hwired).
  rewrite train_with_memory_optimization_split, (bind_run _ _ _ _ _ Hbuild).
  intros Hrun. exists evs0. split; [done|]. split; [done|].
  destruct r0 as [t|e].
  - right.
    destruct (train_and_save_cases w t {| trace := evs0; log_history := [] |})
      as (r' & evs & Hcases & Hhow).
    rewrite Hcases in Hrun. injection Hrun as <- <-.
    exists t, evs. split; [by apply Hret|]. by split.
  - left. injection Hrun as <- <-. by exists e.
Qed.


Lemma count_train_setup evs :
  forallb setup_event evs = true -> count_calls is_train evs = 0%nat.
Proof. apply count_calls_setup. by intros []. Qed.

Lemma count_save_setup evs :
  forallb setup_event evs = true -> count_calls is_save evs = 0%nat.
Proof. apply count_calls_setup. by intros []. Qed.

(** X7: the trainer of a run is wired from the run's own objects: its model
    is the loaded ["meta-llama/Llama-2-7b-hf"] model prepared for k-bit
    training and wrapped with the LoRA configuration, its arguments are the
    memory-optimized training arguments, its two datasets are the parts of
    the run's tokenized dataset, its collator holds the very tokenizer that
    tokenized that dataset (with [mlm] off), and its metrics are
    [compute_metrics]; and a trainer the function returns is that one. *)
Theorem trainer_is_wired_from_the_run :
  forall (w : World) (r : outcome Trainer) (s : state),
    train_with_memory_optimization w initial_state = (r, s) ->
    (forall t, Call (new_Trainer t) ∈ trace s ->
       exists tokenized,
         tokenized_in w tokenized
         /\ t = built_trainer w tokenized
         /\ collator_tokenizer (data_collator t) = notebook_tokenizer w
         /\ (length (train_dataset t) + length (eval_dataset t))%nat
            = length tokenized)
    /\ (forall t, r = Returned t -> Call (new_Trainer t) ∈ trace s).
Proof.
  intros w r s Hrun.
  destruct (run_by_parts w r s Hrun) as (evs0 & Hsetup & Hwired & Hcases).
  assert (Hin0 : forall t, Call (new_Trainer t) ∈ trace s -> Call (new_Trainer t) ∈ evs0).
  { intros t Hin.
    destruct Hcases as [(e & _ & ->)|(t0 & evs & _ & -> & Hhow)]; [done|].
    simpl in Hin. apply elem_of_app in Hin as [Hin|Hin]; [done|].
    destruct Hhow as [(_ & -> & _)|[(e & _ & _ & -> & _)|(e & _ & _ & -> & _)]];
      in_trace Hin. }
  split.
  - intros t Hin. destruct (Hwired t (Hin0 t Hin)) as (tokenized & Htok & ->).
    exists tokenized. split; [done|]. split; [done|]. split; [done|].
    simpl. rewrite <- length_app. by rewrite take_drop.
  - intros t ->.
    destruct Hcases as [(e & [=] & _)|(t0 & evs & Hlast & -> & Hhow)].
    assert (t = t0) as ->.
    { destruct Hhow as [(_ & _ & Hr)|[(e & _ & _ & _ & Hr)|(e & _ & _ & _ & Hr)]];
        [destruct (raises w _)..|]; by inversion Hr. }
    simpl. apply elem_of_app. left.
    apply last_Some in Hlast as [l' ->]. apply elem_of_app. right. by left.
Qed.

Lemma trainer_is_wired_from_the_run_witness :
  exists tokenized,
    tokenized_in calm tokenized /\ sample_trainer = built_trainer calm tokenized.
Proof.
  destruct (proj1 (trainer_is_wired_from_the_run calm _ _ (surjective_pairing _))
              sample_trainer) as (tokenized & Htok & Hwired & _).
  - apply (list_elem_of_lookup_2 _ 25%nat). vm_compute. reflexivity.
  - exists tokenized. split; [exact Htok|exact Hwired].
Defined.

(** X8: a run of the training function calls [trainer.train()] at most
    once and [save_model] at most once, and never saves without having
    trained; a run that returns has done both exactly once, on the trainer
    it returns, and the save ([./final_llama2_model] or [./partial_model])
    is the last thing it did. *)
Theorem trains_once_and_saves_last :
  forall (w : World) (r : outcome Trainer) (s : state),
    train_with_memory_optimization w initial_state = (r, s) ->
    (count_calls is_train (trace s) <= 1)%nat
    /\ (count_calls is_save (trace s) <= count_calls is_train (trace s))%nat
    /\ (forall t, r = Returned t ->
          count_calls is_train (trace s) = 1%nat
          /\ count_calls is_save (trace s) = 1%nat
          /\ Call (trainer_train t) ∈ trace s
          /\ exists path,
               last (trace s) = Some (Call (trainer_save_model t path))
               /\ (path = "./final_llama2_model" \/ path = "./partial_model")).
Proof.
  intros w r s Hrun.
  destruct (run_by_parts w r s Hrun) as (evs0 & Hsetup & _ & Hcases).
  pose proof (count_train_setup evs0 Hsetup) as Htrain0.
  pose proof (count_save_setup evs0 Hsetup) as Hsave0.
  destruct Hcases as [(e & -> & ->)|(t0 & evs & _ & -> & Hhow)].
  { cbn [trace]. rewrite Htrain0, Hsave0.
    split; [lia|]. split; [lia|]. by intros t. }
  cbn [trace]. rewrite !count_calls_app, Htrain0, Hsave0.
  destruct Hhow as [(_ & -> & Hr)|[(e & _ & _ & -> & Hr)|(e & _ & _ & -> & Hr)]];
    (split; [simpl; lia|]); (split; [simpl; lia|]); intros t Ht; subst r.
  - destruct (raises w _); [done|]. injection Ht as <-.
    repeat split; [apply elem_of_app; right; by left|].
    exists "./final_llama2_model". split; [by rewrite last_app_cons|by left].
  - destruct (raises w (trainer_save_model _ _)); [done|]. injection Ht as <-.
    repeat split; [apply elem_of_app; right; by left|].
    exists "./partial_model". split; [by rewrite last_app_cons|by right].
  - done.
Qed.

Lemma trains_once_and_saves_last_witness :
  count_calls is_train
    (trace (snd (train_with_memory_optimization oom_in_training initial_state))) = 1%nat
  /\ last (trace (snd (train_with_memory_optimization oom_in_training initial_state)))
     = Some (Call (trainer_save_model sample_trainer "./partial_model")).
Proof.
  destruct (proj2 (proj2 (trains_once_and_saves_last oom_in_training _ _
                            (surjective_pairing _))) sample_trainer)
    as (Htrain & _ & _ & path & Hlast & _).
  - vm_compute. reflexivity.
  - split; [exact Htrain|]. vm_compute. reflexivity.
Defined.



(** A run on which nothing raises, for any tokenized dataset of the run. *)
Lemma quiet_run w tokenized :
  (forall c, raises w c = None) ->
  tokenized_in w tokenized ->
  train_with_memory_optimization w initial_state
  = (Returned (built_trainer w tokenized),
     {| trace := memory_events w ++ training_events w tokenized;
        log_history := logged_by_train w (built_trainer w tokenized) |}).
Proof.
  intros Hquiet (shuffled & Hsel & Hmap).
  destruct (split_partition tokenized) as (Hprefix & Hsuffix & _).
  unfold notebook_dataset, notebook_tokenizer in *.
  unfold train_with_memory_optimization.
  rewrite (bind_run _ _ _ _ _ (optimize_memory_quiet w initial_state Hquiet)).
  py_open. py_run. reflexivity.
Qed.

(** X10: an empty dataset is not rejected anywhere: when the hub returns no
    row (and nothing raises), the tokenized dataset is empty, the split
    point is 0, both parts of the split are empty, and the function still
    builds the trainer, calls [trainer.train()] on it, saves the final
    model and returns it. *)
Theorem empty_dataset_is_not_rejected :
  forall w : World,
    (forall c, raises w c = None) ->
    notebook_dataset w = [] ->
    permutation w 42 0 = [] ->
    tokenized_in w []
    /\ train_dataset (built_trainer w []) = []
    /\ eval_dataset (built_trainer w []) = []
    /\ train_with_memory_optimization w initial_state
       = (Returned (built_trainer w []),
          {| trace := memory_events w ++ training_events w [];
             log_history := logged_by_train w (built_trainer w []) |})
    /\ Call (trainer_train (built_trainer w [])) ∈ memory_events w ++ training_events w [].
Proof.
  intros w Hquiet Hempty Hperm.
  assert (Htok : tokenized_in w []).
  { exists []. rewrite Hempty. simpl. by rewrite Hperm. }
  split; [done|]. split; [done|]. split; [done|].
  split; [by apply quiet_run|].
  apply elem_of_app. right.
  repeat first [apply list_elem_of_here | apply list_elem_of_further].
Qed.

Lemma empty_dataset_is_not_rejected_witness :
  fst (train_with_memory_optimization empty_hub initial_state)
  = Returned (built_trainer empty_hub []).
Proof.
  destruct (empty_dataset_is_not_rejected empty_hub
              (fun c => eq_refl) eq_refl eq_refl) as (_ & _ & _ & Hrun & _).
  by rewrite Hrun.
Defined.
